(** * vm.getCode artifact lookup: fixtures, configuration and reproduce script

    A shallow embedding of the repository's Solidity fixtures
    (SimpleContract, the TestContract suites), of its Hardhat
    configuration objects and of its reproduce script, together with a
    model of the artifact index the fixtures probe. *)

From Stdlib Require Import NArith List String Ascii Lia.
From Stdlib.Strings Require Import Byte.
From stdpp Require Import gmap strings.

Local Open Scope N_scope.

(** ** Results of calls *)

(** A call either returns or reverts with a reason. *)
Inductive Outcome (A : Type) : Type :=
| Ok (a : A)
| Reverted (reason : string).
Arguments Ok {A} a.
Arguments Reverted {A} reason.

Definition is_ok {A} (o : Outcome A) : bool :=
  match o with Ok _ => true | Reverted _ => false end.

(** ** Words and ABI encoding *)

Module Abi.

Abbreviation bytes := (list byte).

Definition modulus256 : N := 2 ^ 256.

(** A [uint256] keeps the low 256 bits. *)
Definition wrap256 (x : N) : N := x mod modulus256.

Definition is_uint256 (x : N) : Prop := x < modulus256.

Definition byte_of_N (n : N) : byte :=
  match Byte.of_N (n mod 256) with
  | Some b => b
  | None => "000"%byte
  end.

(** Big-endian bytes of [v], [len] of them. *)
Fixpoint be_bytes (len : nat) (v : N) : bytes :=
  match len with
  | O => []
  | S k => be_bytes k (v / 256) ++ [byte_of_N v]
  end.

Definition be_step (acc : N) (b : byte) : N := acc * 256 + Byte.to_N b.

Definition be_value (bs : bytes) : N := fold_left be_step bs 0.

(** [abi.encode(uint256)]: one 32-byte big-endian word. *)
Definition encode_uint256 (v : N) : bytes := be_bytes 32 (wrap256 v).

(** Decoding one [uint256] head word; shorter data reverts in the
    decoder, longer data is accepted and its tail ignored. *)
Definition decode_uint256 (data : bytes) : option N :=
  if (length data <? 32)%nat then None
  else Some (be_value (firstn 32 data)).

(** [abi.encodePacked(bytes, bytes)] is concatenation. *)
Definition encodePacked (a b : bytes) : bytes := a ++ b.

End Abi.

(** ** contracts/SimpleContract.sol *)

Module SimpleContract.
Import Abi.

(** Storage: slot number to word, absent slots read as zero. *)
Abbreviation Storage := (gmap N N).

Record Msg := { sender : N }.

Definition sload (s : Storage) (slot : N) : N := default 0 (s !! slot).

Definition sstore (slot v : N) (s : Storage) : Storage :=
  <[slot := wrap256 v]> s.

(** [uint256 public value] is the first state variable: slot 0. *)
Definition value_slot : N := 0.

(** [constructor(uint256 _value) { value = _value; }] *)
Definition constructor (m : Msg) (_value : N) : Outcome Storage :=
  Ok (sstore value_slot _value ∅).

(** [function setValue(uint256 _value) public { value = _value; }] *)
Definition setValue (m : Msg) (_value : N) (s : Storage) : Outcome Storage :=
  Ok (sstore value_slot _value s).

(** The getter generated for [uint256 public value]. *)
Definition value (m : Msg) (s : Storage) : Outcome N :=
  Ok (sload s value_slot).

End SimpleContract.

(** ** Paths and contract identifiers *)

Module Paths.

(** Components of [s] between occurrences of [sep]. *)
Fixpoint split_on (sep : ascii) (s : string) : list string :=
  match s with
  | EmptyString => [EmptyString]
  | String c rest =>
      if Ascii.eqb c sep then EmptyString :: split_on sep rest
      else match split_on sep rest with
           | hd :: tl => String c hd :: tl
           | [] => [String c EmptyString]
           end
  end.

Definition components (p : string) : list string := split_on "/" p.

Definition basename (p : string) : string := List.last (components p) EmptyString.

Definition dirname (p : string) : list string := removelast (components p).

Fixpoint join (cs : list string) : string :=
  match cs with
  | [] => EmptyString
  | [c] => c
  | c :: rest => c +:+ "/" +:+ join rest
  end.

(** Walk the components of a relative import from the importing
    file's directory ([stack] is that directory, innermost first). *)
Fixpoint walk (stack : list string) (cs : list string) : option (list string) :=
  match cs with
  | [] => Some (rev stack)
  | c :: rest =>
      if String.eqb c ".." then
        match stack with
        | [] => None
        | _ :: up => walk up rest
        end
      else if String.eqb c "." then walk stack rest
      else walk (c :: stack) rest
  end.

Definition is_relative (imp : string) : bool :=
  match components imp with
  | c :: _ => String.eqb c "." || String.eqb c ".."
  | [] => false
  end.

(** Resolution of [import ... from "<imp>"] written in file
    [importer]; only relative imports are resolved against the
    project tree. *)
Definition resolve_import (importer imp : string) : option string :=
  if is_relative imp
  then option_map join (walk (rev (dirname importer)) (components imp))
  else None.

(** ["File.sol"] or ["File.sol:Symbol"]: the file part and the
    optional contract symbol. *)
Fixpoint split_identifier (id : string) : string * option string :=
  match id with
  | EmptyString => (EmptyString, None)
  | String c rest =>
      if Ascii.eqb c ":" then (EmptyString, Some rest)
      else let '(file, sym) := split_identifier rest in (String c file, sym)
  end.

End Paths.

(** ** Compiled artifacts and the lookup-by-name capability *)

Module Artifacts.
Import Abi Paths.

(** Modelled from the spec: the compiled-artifact record (name,
    source path, bytecode) of the data model; the build tool that
    produces and stores these records is not part of the repository. *)
Record Artifact := {
  name : string;
  sourcePath : string;
  bytecode : bytes
}.

(** Modelled from the spec: the two disjoint artifact collections
    persisted by the build tool, one per compilation scope
    ([artifacts/] for main sources, [cache/test-artifacts/] for test
    sources). *)
Record Disk := {
  contracts_scope : list Artifact;
  tests_scope : list Artifact
}.

(** A Solidity source file: its imports and, for every contract it
    defines, the creation bytecode the compiler emits for it. *)
Record SourceFile := {
  path : string;
  imports : list string;
  defines : list (string * bytes)
}.

Record Project := {
  main_sources : list SourceFile;
  test_sources : list SourceFile
}.

Definition compile_file (f : SourceFile) : list Artifact :=
  map (fun d => {| name := fst d; sourcePath := path f; bytecode := snd d |})
      (defines f).

(** Modelled from the spec: a compilation pass covers one scope and
    regenerates that scope's collection from its sources. The
    test-sources pass emits artifacts for the test files only, not
    for the main sources they import. *)
Definition compile_tests (p : Project) (d : Disk) : Disk :=
  {| contracts_scope := contracts_scope d;
     tests_scope := flat_map compile_file (test_sources p) |}.

(** Modelled from the spec: the main-sources pass regenerates the
    contract-scope collection. *)
Definition compile_contracts (p : Project) (d : Disk) : Disk :=
  {| contracts_scope := flat_map compile_file (main_sources p);
     tests_scope := tests_scope d |}.

(** Modelled from the spec: the full-project compilation covers both
    scopes. *)
Definition compile_all (p : Project) (d : Disk) : Disk :=
  compile_tests p (compile_contracts p d).

(** Every artifact on disk, whatever its scope. *)
Definition on_disk (d : Disk) : list Artifact :=
  tests_scope d ++ contracts_scope d.

(** Modelled from the spec: the in-memory index consulted by the
    lookup is populated only from the test-source scope (the defect
    under test); the tool's loader is not part of the repository. *)
Definition load_index (d : Disk) : list Artifact := tests_scope d.

(** Modelled from the spec: an identifier names a source file and an
    optional contract symbol within it; an artifact matches when its
    source file has that name and, if a symbol is given, its name is
    that symbol. *)
Definition matches (id : string) (a : Artifact) : bool :=
  let '(file, sym) := split_identifier id in
  String.eqb (basename (sourcePath a)) file
  && match sym with
     | None => true
     | Some s => String.eqb (name a) s
     end.

Definition no_matching_artifact : string := "no matching artifact found".

(** Modelled from the spec: the bytecode-lookup capability
    ([vm.getCode]) searches the index for an artifact matching the
    identifier and returns its bytecode, or fails with the not-found
    message; the cheatcode's implementation is not part of the
    repository. *)
Definition lookup (index : list Artifact) (id : string) : Outcome bytes :=
  match find (matches id) index with
  | Some a => Ok (bytecode a)
  | None => Reverted no_matching_artifact
  end.

Definition mentions (dir : string) (dirs : list string) : bool :=
  existsb (String.eqb dir) dirs.

(** [rm -rf <dirs>]: [artifacts] holds the main-scope collection,
    [cache] the test-scope collection. *)
Definition rm_rf (dirs : list string) (d : Disk) : Disk :=
  {| contracts_scope := if mentions "artifacts" dirs then [] else contracts_scope d;
     tests_scope := if mentions "cache" dirs then [] else tests_scope d |}.

End Artifacts.

(** ** Test execution: forge-std assertions and cheatcodes *)

Module Forge.
Import Abi.

Inductive Cheat :=
| CheatGetCode (id : string)
| CheatExpectRevert.

Inductive LogEntry :=
| Log1 (a : string)
| Log2 (a b : string)
| LogUint (a : string) (n : N).

(** Deployed SimpleContract instances by address. Addresses are
    handed out from a counter, which stands for the EVM's
    sender-and-nonce derivation; address 0 is never handed out. *)
Record World := {
  accounts : gmap N (gmap N N);
  created : N
}.

Record TestState := {
  world : World;
  console : list LogEntry;
  cheats : list Cheat;
  expecting_revert : bool
}.

Definition initial_state : TestState :=
  {| world := {| accounts := ∅; created := 0 |};
     console := [];
     cheats := [];
     expecting_revert := false |}.

(** A test body threads the test state and may revert. *)
Definition M (A : Type) : Type := TestState -> TestState * Outcome A.

Definition ret {A} (a : A) : M A := fun st => (st, Ok a).

Definition bind {A B} (c : M A) (k : A -> M B) : M B :=
  fun st =>
    match c st with
    | (st', Ok a) => k a st'
    | (st', Reverted r) => (st', Reverted r)
    end.

Definition revert {A} (reason : string) : M A := fun st => (st, Reverted reason).

#[global] Instance M_ret : MRet M := @ret.
#[global] Instance M_bind : MBind M := fun A B k c => bind c k.

Definition set_world (w : World) (st : TestState) : TestState :=
  {| world := w; console := console st; cheats := cheats st;
     expecting_revert := expecting_revert st |}.

Definition set_expecting (b : bool) (st : TestState) : TestState :=
  {| world := world st; console := console st; cheats := cheats st;
     expecting_revert := b |}.

Definition record_cheat (c : Cheat) (st : TestState) : TestState :=
  {| world := world st; console := console st; cheats := cheats st ++ [c];
     expecting_revert := expecting_revert st |}.

Definition record_log (e : LogEntry) (st : TestState) : TestState :=
  {| world := world st; console := console st ++ [e]; cheats := cheats st;
     expecting_revert := expecting_revert st |}.

Definition console_log (e : LogEntry) : M unit := fun st => (record_log e st, Ok tt).

Definition assertTrue (b : bool) (msg : string) : M unit :=
  if b then ret tt else revert msg.

Definition assertEq (a b : N) (msg : string) : M unit :=
  if a =? b then ret tt else revert msg.

Definition require (b : bool) (msg : string) : M unit :=
  if b then ret tt else revert msg.

(** [vm.expectRevert()]: the next external call must revert. *)
Definition expectRevert : M unit :=
  fun st => (set_expecting true (record_cheat CheatExpectRevert st), Ok tt).

Definition not_reverted : string := "next call did not revert as expected".

(** An external message call. A revert undoes the callee's changes
    to the world; under [vm.expectRevert] the caller continues exactly
    when the callee reverted ([dflt] stands for the zeroed return
    data). *)
Definition external_call {A} (dflt : A) (callee : M A) : M A :=
  fun st =>
    let expected := expecting_revert st in
    match callee (set_expecting false st) with
    | (st', Ok a) =>
        if expected then (st', Reverted not_reverted) else (st', Ok a)
    | (st', Reverted r) =>
        let st'' := set_world (world st) st' in
        if expected then (st'', Ok dflt) else (st'', Reverted r)
    end.

(** [try <call> returns (x) { on_ok } catch { on_err }] *)
Definition try_catch {A B} (call : M A) (on_ok : A -> M B) (on_err : M B) : M B :=
  fun st =>
    match call st with
    | (st', Ok a) => on_ok a st'
    | (st', Reverted _) => on_err (set_world (world st) st')
    end.

(** [for (uint i = 0; i < xs.length; i++) body(xs[i])] *)
Fixpoint for_each {A} (xs : list A) (body : A -> M unit) : M unit :=
  match xs with
  | [] => ret tt
  | x :: rest => body x;; for_each rest body
  end.

Inductive TestResult :=
| Passed
| Failed (reason : string).

Definition unmet_expectation : string := "expected a revert, but no call was made".

(** A test passes when its body returns with no pending
    [expectRevert]. *)
Definition result_of (r : TestState * Outcome unit) : TestResult :=
  match r with
  | (st, Ok _) => if expecting_revert st then Failed unmet_expectation else Passed
  | (_, Reverted reason) => Failed reason
  end.

Definition run_test (t : M unit) : TestResult := result_of (t initial_state).

Definition passed (r : TestResult) : bool :=
  match r with Passed => true | Failed _ => false end.

Definition is_expectRevert (c : Cheat) : bool :=
  match c with CheatExpectRevert => true | CheatGetCode _ => false end.

Definition issued_expectRevert (st : TestState) : bool :=
  existsb is_expectRevert (cheats st).

(** Whether running the test issues [vm.expectRevert]. *)
Definition uses_expectRevert (t : M unit) : bool :=
  issued_expectRevert (fst (t initial_state)).

(** A computation that issues no [vm.expectRevert] of its own. *)
Definition quiet {A} (c : M A) : Prop :=
  forall st, issued_expectRevert (fst (c st)) = issued_expectRevert st.

(** A computation that leaves the chain state as it found it. *)
Definition keeps_world {A} (c : M A) : Prop :=
  forall st, world (fst (c st)) = world st.

End Forge.

(** ** What the fixtures call but the repository does not define *)

Module Env.
Import Abi Forge.

(** [Options] of foundry-upgrades; the fixture sets this one field. *)
Record Options := { unsafeSkipAllChecks : bool }.

(** [abi.encodeCall(Greeter.initialize, (initialOwner, _greeting))] *)
Record GreeterInitialize := { initialOwner : N; _greeting : string }.

Record Env := {
  (** [vm.getCode] *)
  getCode : string -> Outcome bytes;
  (** the creation bytecode the compiler emits for SimpleContract *)
  SimpleContract_creationCode : bytes;
  (** the address of the running test contract ([this]) *)
  this_address : N;
  (** [Upgrades.deployTransparentProxy] of foundry-upgrades *)
  deployTransparentProxy :
    string -> N -> GreeterInitialize -> Options -> World -> World * Outcome N
}.

End Env.

(** ** The fixtures' view of the chain *)

Module Evm.
Import Abi Forge Env.

Fixpoint strip_prefix (pre l : bytes) : option bytes :=
  match pre, l with
  | [], _ => Some l
  | p :: pre', x :: l' => if Byte.eqb p x then strip_prefix pre' l' else None
  | _ :: _, [] => None
  end.

Definition fresh_address (w : World) : N := created w + 1.

Definition install (s : gmap N N) (w : World) : World :=
  {| accounts := <[fresh_address w := s]> (accounts w);
     created := created w + 1 |}.

(** The [create] instruction on [initcode]. Init code made of
    SimpleContract's creation bytecode followed by constructor
    arguments runs SimpleContract's constructor on the decoded
    argument (the constructor is not payable); the result is the new
    address, or 0 when creation fails. Any other init code would be
    run by the EVM as it stands, which is outside this model: the 0
    answered for it is a placeholder, and what is proved of [create]
    is stated for SimpleContract's init code. *)
Definition create (env : Env) (callvalue : N) (initcode : bytes) : M N :=
  fun st =>
    match strip_prefix (SimpleContract_creationCode env) initcode with
    | Some args =>
        match decode_uint256 args with
        | Some v =>
            if callvalue =? 0 then
              match SimpleContract.constructor
                      {| SimpleContract.sender := this_address env |} v with
              | Ok s => (set_world (install s (world st)) st,
                         Ok (fresh_address (world st)))
              | Reverted _ => (st, Ok 0)
              end
            else (st, Ok 0)
        | None => (st, Ok 0)
        end
    | None => (st, Ok 0)
    end.

Definition no_code : string := "call to non-contract address".

(** [deployed.value()] *)
Definition SimpleContract_value (env : Env) (deployed : N) : M N :=
  external_call 0
    (fun st =>
       match accounts (world st) !! deployed with
       | Some s =>
           (st, SimpleContract.value {| SimpleContract.sender := this_address env |} s)
       | None => (st, Reverted no_code)
       end).

(** [deployed.setValue(_value)] *)
Definition SimpleContract_setValue (env : Env) (deployed : N) (_value : N) : M unit :=
  external_call tt
    (fun st =>
       match accounts (world st) !! deployed with
       | Some s =>
           match SimpleContract.setValue
                   {| SimpleContract.sender := this_address env |} _value s with
           | Ok s' =>
               (set_world {| accounts := <[deployed := s']> (accounts (world st));
                             created := created (world st) |} st,
                Ok tt)
           | Reverted r => (st, Reverted r)
           end
       | None => (st, Reverted no_code)
       end).

(** forge-std's [vm]: the cheatcode contract. *)
Definition VM_ADDRESS : N := 0x7109709ECfa91a80626fF3989D68f67F5b1DD12D.

Definition vm_getCode (env : Env) (id : string) : M bytes :=
  fun st => (record_cheat (CheatGetCode id) st, getCode env id).

(** [Vm(addr).getCode(id)]: the same cheatcode when [addr] is the
    cheatcode address, a call to an address without code otherwise. *)
Definition Vm_getCode (env : Env) (addr : N) (id : string) : M bytes :=
  if addr =? VM_ADDRESS then vm_getCode env id else revert no_code.

(** [Upgrades.deployTransparentProxy(...)], a library function
    inlined into the test. *)
Definition Upgrades_deployTransparentProxy (env : Env)
    (contractName : string) (owner : N) (data : GreeterInitialize)
    (opts : Options) : M N :=
  fun st =>
    let '(w, o) := deployTransparentProxy env contractName owner data opts (world st) in
    (set_world w st, o).

End Evm.

(** ** test/solidity/Test.t.sol *)

Module TestContract.
Import Abi Forge Env Evm.
Local Open Scope string_scope.

Definition CHEATCODE_ADDRESS : N := 0x7109709ECfa91a80626fF3989D68f67F5b1DD12D.

Definition nl : string := String "010"%char EmptyString.

(** The identifier of the package contract the fixtures look up. *)
Definition package_contract : string :=
  "TransparentUpgradeableProxy.sol:TransparentUpgradeableProxy".

Section Fixtures.
Variable env : Env.

Definition test_LOCAL_vmGetCode_SimpleContract_SHOULD_PASS : M unit :=
  code ← vm_getCode env "SimpleContract.sol";
  assertTrue (0 <? length code)%nat "Local contract should be found".

Definition test_LOCAL_vmGetCode_Greeter_SHOULD_PASS : M unit :=
  code ← vm_getCode env "Greeter.sol";
  assertTrue (0 <? length code)%nat "Local contract should be found".

Definition test_LOCAL_deployWithVmGetCode_SHOULD_PASS : M unit :=
  code ← vm_getCode env "SimpleContract.sol";
  let initialValue : N := 100 in
  let deploymentBytecode := encodePacked code (encode_uint256 initialValue) in
  deployed ← create env 0 deploymentBytecode;
  v ← SimpleContract_value env deployed;
  assertEq v initialValue "Deployed contract should work".

Definition test_PACKAGE_vmGetCode_TransparentProxy_EXPECT_FAIL : M unit :=
  let contractName := "TransparentUpgradeableProxy.sol:TransparentUpgradeableProxy" in
  console_log (Log1 "=== BUG DEMONSTRATION ===");;
  console_log (Log2 "Trying to get code for:" contractName);;
  console_log (Log1 "Note: This contract is imported and compiled, but vm.getCode() will fail");;
  code ← vm_getCode env contractName;
  assertTrue (0 <? length code)%nat
    "EXPECTED TO FAIL: Package contract artifacts not loaded in EDR".

Definition test_PACKAGE_vmGetCode_viaCheatcodeAddress_EXPECT_FAIL : M unit :=
  let contractName := "TransparentUpgradeableProxy.sol:TransparentUpgradeableProxy" in
  console_log (Log1 "=== Testing foundry-upgrades pattern ===");;
  console_log (Log1 "Using Vm(CHEATCODE_ADDRESS).getCode()");;
  code ← Vm_getCode env CHEATCODE_ADDRESS contractName;
  assertTrue (0 <? length code)%nat
    "EXPECTED TO FAIL: Package contract not found via cheatcode address".

Definition test_PACKAGE_deployTransparentProxy_EXPECT_FAIL : M unit :=
  console_log (Log1 "=== Real-world use case that fails ===");;
  console_log (Log1 "Attempting to deploy TransparentUpgradeableProxy for Greeter");;
  let testOwner : N := 0x1234 in
  let opts := {| unsafeSkipAllChecks := true |} in
  _ ← Upgrades_deployTransparentProxy env "Greeter.sol" testOwner
        {| initialOwner := testOwner; _greeting := "hello" |} opts;
  mret tt.

Definition test_DIAGNOSTIC_showArtifactAvailability : M unit :=
  console_log (Log1 (nl +:+ "=== DIAGNOSTIC: Artifact Availability ===" +:+ nl));;
  let contracts :=
    [ "SimpleContract.sol";
      "Greeter.sol";
      "TransparentUpgradeableProxy.sol:TransparentUpgradeableProxy";
      "@openzeppelin/contracts/proxy/transparent/TransparentUpgradeableProxy.sol:TransparentUpgradeableProxy";
      "contracts/proxy/transparent/TransparentUpgradeableProxy.sol:TransparentUpgradeableProxy";
      "node_modules/@openzeppelin/contracts/proxy/transparent/TransparentUpgradeableProxy.sol:TransparentUpgradeableProxy" ] in
  for_each contracts (fun c =>
    console_log (Log2 "Trying:" c);;
    try_catch (vm_getCode env c)
      (fun code => console_log (LogUint "  [FOUND] Length:" (N.of_nat (length code))))
      (console_log (Log1 "  [NOT FOUND]"));;
    console_log (Log1 EmptyString)).

Definition test_DIAGNOSTIC_compareMethods : M unit :=
  console_log (Log1 (nl +:+ "=== DIAGNOSTIC: Comparing vm.getCode() methods ===" +:+ nl));;
  let packageContract := "TransparentUpgradeableProxy.sol:TransparentUpgradeableProxy" in
  let localContract := "Greeter.sol" in
  console_log (Log2 "Package contract:" packageContract);;
  console_log (Log1 "  Method 1 (vm.getCode()):");;
  try_catch (vm_getCode env packageContract)
    (fun _ => console_log (Log1 "    [SUCCESS]"))
    (console_log (Log1 "    [FAILED]"));;
  console_log (Log1 "  Method 2 (Vm(CHEATCODE_ADDRESS).getCode()):");;
  try_catch (Vm_getCode env CHEATCODE_ADDRESS packageContract)
    (fun _ => console_log (Log1 "    [SUCCESS]"))
    (console_log (Log1 "    [FAILED]"));;
  console_log (Log1 EmptyString);;
  console_log (Log2 "Local contract:" localContract);;
  console_log (Log1 "  Method 1 (vm.getCode()):");;
  try_catch (vm_getCode env localContract)
    (fun _ => console_log (Log1 "    [SUCCESS]"))
    (console_log (Log1 "    [FAILED]"));;
  console_log (Log1 "  Method 2 (Vm(CHEATCODE_ADDRESS).getCode()):");;
  try_catch (Vm_getCode env CHEATCODE_ADDRESS localContract)
    (fun _ => console_log (Log1 "    [SUCCESS]"))
    (console_log (Log1 "    [FAILED]")).

(** [function tryGetCodeForPackageContract() external view]; not a
    test: its name does not start with [test]. *)
Definition tryGetCodeForPackageContract : M unit :=
  _ ← vm_getCode env "TransparentUpgradeableProxy.sol:TransparentUpgradeableProxy";
  mret tt.

Definition test_WORKAROUND_expectRevert_onPackageContract_SHOULD_PASS : M unit :=
  console_log (Log1 "=== Testing that package contracts fail (as expected) ===");;
  expectRevert;;
  external_call tt tryGetCodeForPackageContract.

(** The test functions of the contract, in source order. *)
Definition fixtures : list (string * M unit) :=
  [ ("test_LOCAL_vmGetCode_SimpleContract_SHOULD_PASS",
     test_LOCAL_vmGetCode_SimpleContract_SHOULD_PASS);
    ("test_LOCAL_vmGetCode_Greeter_SHOULD_PASS",
     test_LOCAL_vmGetCode_Greeter_SHOULD_PASS);
    ("test_LOCAL_deployWithVmGetCode_SHOULD_PASS",
     test_LOCAL_deployWithVmGetCode_SHOULD_PASS);
    ("test_PACKAGE_vmGetCode_TransparentProxy_EXPECT_FAIL",
     test_PACKAGE_vmGetCode_TransparentProxy_EXPECT_FAIL);
    ("test_PACKAGE_vmGetCode_viaCheatcodeAddress_EXPECT_FAIL",
     test_PACKAGE_vmGetCode_viaCheatcodeAddress_EXPECT_FAIL);
    ("test_PACKAGE_deployTransparentProxy_EXPECT_FAIL",
     test_PACKAGE_deployTransparentProxy_EXPECT_FAIL);
    ("test_DIAGNOSTIC_showArtifactAvailability",
     test_DIAGNOSTIC_showArtifactAvailability);
    ("test_DIAGNOSTIC_compareMethods",
     test_DIAGNOSTIC_compareMethods);
    ("test_WORKAROUND_expectRevert_onPackageContract_SHOULD_PASS",
     test_WORKAROUND_expectRevert_onPackageContract_SHOULD_PASS) ].

End Fixtures.
End TestContract.

(** ** The TestContract with testGetCode, testGetCodeAndCreate and
       testGetCodeFromPackage *)

Module TestContract_part_003.
Import Abi Forge Env Evm.
Local Open Scope string_scope.

Definition assertion_failed : string := "assertion failed".

Section Fixtures.
Variable env : Env.

Definition testGetCode : M unit :=
  code ← vm_getCode env "SimpleContract.sol";
  assertTrue (0 <? length code)%nat assertion_failed.

Definition testGetCodeAndCreate : M unit :=
  code ← vm_getCode env "SimpleContract.sol";
  assertTrue (0 <? length code)%nat "Failed to get contract bytecode";;
  let initialValue : N := 100 in
  let constructorArgs := encode_uint256 initialValue in
  let deploymentBytecode := encodePacked code constructorArgs in
  deployed ← create env 0 deploymentBytecode;
  require (negb (deployed =? 0)%N) "Deployment failed";;
  v ← SimpleContract_value env deployed;
  assertEq v initialValue assertion_failed;;
  SimpleContract_setValue env deployed 42;;
  v' ← SimpleContract_value env deployed;
  assertEq v' 42 assertion_failed.

Definition testGetCodeFromPackage : M unit :=
  code ← vm_getCode env "Greeter.sol";
  assertTrue (0 <? length code)%nat "Failed to get contract bytecode from package".

Definition fixtures : list (string * M unit) :=
  [ ("testGetCode", testGetCode);
    ("testGetCodeAndCreate", testGetCodeAndCreate);
    ("testGetCodeFromPackage", testGetCodeFromPackage) ].

End Fixtures.
End TestContract_part_003.

(** ** The TestContract with testGetCode only *)

Module TestContract_part_004.
Import Abi Forge Env Evm.
Local Open Scope string_scope.

Section Fixtures.
Variable env : Env.

Definition testGetCode : M unit :=
  code ← vm_getCode env "SimpleContract.sol";
  assertTrue (0 <? length code)%nat TestContract_part_003.assertion_failed.

Definition fixtures : list (string * M unit) :=
  [ ("testGetCode", testGetCode) ].

End Fixtures.
End TestContract_part_004.

(** ** The test command of the build tool *)

Module Hardhat.
Import Abi Artifacts Forge Env.
Local Open Scope string_scope.

(** What the toolchain supplies to a run: the compiler's creation
    bytecode for each contract of the repository, the address the test
    contract runs at, and the foundry-upgrades library. *)
Record Toolchain := {
  solc_SimpleContract : bytes;
  solc_Greeter : bytes;
  solc_TestContract : bytes;
  test_address : N;
  upgrades : string -> N -> GreeterInitialize -> Options -> World -> World * Outcome N
}.

(** contracts/SimpleContract.sol *)
Definition SimpleContract_sol (tc : Toolchain) : SourceFile :=
  {| path := "contracts/SimpleContract.sol";
     imports := [];
     defines := [("SimpleContract", solc_SimpleContract tc)] |}.

(** contracts/Greeter.sol *)
Definition Greeter_sol (tc : Toolchain) : SourceFile :=
  {| path := "contracts/Greeter.sol";
     imports :=
       [ "@openzeppelin/contracts-upgradeable/access/OwnableUpgradeable.sol";
         "@openzeppelin/contracts-upgradeable/proxy/utils/Initializable.sol" ];
     defines := [("Greeter", solc_Greeter tc)] |}.

(** test/solidity/Test.t.sol, with the import list of each of its
    three texts. *)
Definition Test_t_sol (tc : Toolchain) : SourceFile :=
  {| path := "test/solidity/Test.t.sol";
     imports :=
       [ "forge-std/Test.sol";
         "forge-std/console.sol";
         "forge-std/Vm.sol";
         "../../contracts/SimpleContract.sol";
         "../../contracts/Greeter.sol";
         "@openzeppelin/foundry-upgrades/src/Upgrades.sol";
         "@openzeppelin/foundry-upgrades/src/Options.sol";
         "@openzeppelin/contracts/proxy/transparent/TransparentUpgradeableProxy.sol" ];
     defines := [("TestContract", solc_TestContract tc)] |}.

Definition Test_t_sol_part_003 (tc : Toolchain) : SourceFile :=
  {| path := "test/solidity/Test.t.sol";
     imports :=
       [ "forge-std/Test.sol";
         "../../contracts/SimpleContract.sol";
         "../../contracts/Greeter.sol" ];
     defines := [("TestContract", solc_TestContract tc)] |}.

Definition Test_t_sol_part_004 (tc : Toolchain) : SourceFile :=
  {| path := "test/solidity/Test.t.sol";
     imports :=
       [ "forge-std/Test.sol";
         "../../contracts/SimpleContract.sol" ];
     defines := [("TestContract", solc_TestContract tc)] |}.

(** The three texts of the test file. *)
Definition test_files (tc : Toolchain) : list SourceFile :=
  [Test_t_sol tc; Test_t_sol_part_003 tc; Test_t_sol_part_004 tc].

(** The project: main sources under [contracts/], the test file under
    [test/solidity/]. *)
Definition project (tc : Toolchain) (test_file : SourceFile) : Project :=
  {| main_sources := [SimpleContract_sol tc; Greeter_sol tc];
     test_sources := [test_file] |}.

(** The artifact compiled from contracts/SimpleContract.sol. *)
Definition SimpleContract_artifact (tc : Toolchain) : Artifact :=
  {| name := "SimpleContract";
     sourcePath := "contracts/SimpleContract.sol";
     bytecode := solc_SimpleContract tc |}.

(** Whether an import of [f] resolves to a source file of the project. *)
Definition importable (p : Project) (f : SourceFile) (imp : string) : bool :=
  match Paths.resolve_import (path f) imp with
  | Some target =>
      existsb (fun g => String.eqb (path g) target) (main_sources p ++ test_sources p)
  | None => false
  end.

(** The cheatcode environment of a run over [index]. *)
Definition env_of (tc : Toolchain) (index : list Artifact) : Env :=
  {| getCode := lookup index;
     SimpleContract_creationCode := solc_SimpleContract tc;
     this_address := test_address tc;
     deployTransparentProxy := upgrades tc |}.

Abbreviation Report := (list (string * TestResult)).

Definition run_suite (suite : list (string * M unit)) : Report :=
  map (fun t => (fst t, run_test (snd t))) suite.

Definition has_failure (r : Report) : bool :=
  existsb (fun t => negb (passed (snd t))) r.

(** Modelled from the spec: the tool's exit-code convention, non-zero
    when the test command reports a failing assertion; the convention
    is the external tool's own. *)
Definition exit_status (r : Report) : N := if has_failure r then 1 else 0.

Definition with_exit_status (tool : list string -> Disk -> Disk * Report)
    (args : list string) (d : Disk) : Disk * N :=
  let '(d', r) := tool args d in (d', exit_status r).

(** Modelled from the spec: the test-execution mode runs the
    test-sources compilation pass, loads the index and runs the test
    contract's fixtures against it; the tool's task is not part of
    the repository. *)
Definition test_solidity (tc : Toolchain) (p : Project)
    (suite : Env -> list (string * M unit)) (d : Disk) : Disk * Report :=
  let d' := compile_tests p d in
  (d', run_suite (suite (env_of tc (load_index d')))).

(** Modelled from the spec: [hardhat test solidity <file>] is the
    test-execution mode on a test source of the project, and
    [hardhat compile] the full-project compilation; other invocations
    report one failure. *)
Definition hardhat (tc : Toolchain) (p : Project)
    (suite : Env -> list (string * M unit))
    (args : list string) (d : Disk) : Disk * Report :=
  match args with
  | ["hardhat"; "test"; "solidity"; file] =>
      if existsb (fun f => String.eqb (path f) file) (test_sources p)
      then test_solidity tc p suite d
      else (d, [(file, Failed "no such test file")])
  | ["hardhat"; "compile"] => (compile_all p d, [])
  | _ => (d, [("hardhat", Failed "unknown task")])
  end.

End Hardhat.

(** ** The reproduce script *)

Module Shell.

Record Options := { errexit : bool; nounset : bool; pipefail : bool }.

(** A script of simple commands: each command is its argument vector. *)
Record Script := {
  options : Options;
  commands : list (list string)
}.

Record Run (S : Type) := {
  final : S;
  status : N;
  executed : list (list string)
}.
Arguments final {S} _.
Arguments status {S} _.
Arguments executed {S} _.

Section Run.
Context {S : Type}.
(** What running one command does to the machine, and its exit status. *)
Variable exec : list string -> S -> S * N.

(** Commands run in order; the script's status is that of the last
    command run. Under [set -e] the first command with a non-zero
    status ends the script. [last] is the status so far. *)
Fixpoint run_from (e : bool) (last : N) (cmds : list (list string)) (s : S) : Run S :=
  match cmds with
  | [] => {| final := s; status := last; executed := [] |}
  | c :: rest =>
      let '(s', code) := exec c s in
      if e && negb (code =? 0)
      then {| final := s'; status := code; executed := [c] |}
      else
        let r := run_from e code rest s' in
        {| final := final r; status := status r; executed := c :: executed r |}
  end.

Definition run (sc : Script) (s : S) : Run S :=
  run_from (errexit (options sc)) 0 (commands sc) s.

End Run.

Local Open Scope string_scope.

(** [rm -rf artifacts cache] *)
Definition rm_command : list string := ["rm"; "-rf"; "artifacts"; "cache"].

(** [npx hardhat test solidity test/solidity/Test.t.sol] *)
Definition test_command : list string :=
  ["npx"; "hardhat"; "test"; "solidity"; "test/solidity/Test.t.sol"].

(** [set -euo pipefail], then the two commands of the script. *)
Definition reproduce : Script :=
  {| options := {| errexit := true; nounset := true; pipefail := true |};
     commands := [rm_command; test_command] |}.

Definition command_not_found : N := 127.

(** The commands the script uses: [rm -rf] on the artifact
    directories always succeeds ([-f]); [npx] hands its arguments to
    the tool [npx]; anything else is not a command. *)
Definition exec (npx : list string -> Artifacts.Disk -> Artifacts.Disk * N)
    (argv : list string) (d : Artifacts.Disk) : Artifacts.Disk * N :=
  match argv with
  | "rm" :: "-rf" :: dirs => (Artifacts.rm_rf dirs d, 0)
  | "npx" :: args => npx args d
  | _ => (d, command_not_found)
  end.

End Shell.

(** ** hardhat.config.ts *)

Module Config.
Local Open Scope string_scope.

(** The values an object literal of the configuration is made of. *)
#[local] Unset Elimination Schemes.
Inductive JsValue :=
| JsString (s : string)
| JsBool (b : bool)
| JsArray (items : list JsValue)
| JsObject (fields : list (string * JsValue)).
#[local] Set Elimination Schemes.

Definition field (k : string) (v : JsValue) : option JsValue :=
  match v with
  | JsObject fs => option_map snd (find (fun f => String.eqb (fst f) k) fs)
  | _ => None
  end.

(** [v.k1.k2...], [None] where a property is missing. *)
Fixpoint at_path (ks : list string) (v : JsValue) : option JsValue :=
  match ks with
  | [] => Some v
  | k :: rest =>
      match field k v with
      | Some v' => at_path rest v'
      | None => None
      end
  end.

Definition keys (v : JsValue) : list string :=
  match v with
  | JsObject fs => map fst fs
  | _ => []
  end.

(** [const config: HardhatUserConfig = {...}] of src/hardhat.config.ts *)
Definition config : JsValue :=
  JsObject
    [ ("solidity", JsObject [ ("version", JsString "0.8.20") ]);
      ("paths", JsObject
         [ ("tests", JsObject [ ("solidity", JsString "./test/solidity") ]) ]);
      ("test", JsObject
         [ ("solidity", JsObject
              [ ("ffi", JsBool true);
                ("fsPermissions", JsObject
                   [ ("readFile", JsArray
                        [ JsString "./hardhat.config.ts";
                          JsString "./artifacts/**/*.json" ]);
                     ("readDirectory", JsArray
                        [ JsString "./artifacts";
                          JsString "./artifacts/contracts" ]) ]) ]) ]) ].

(** The configuration that also lists npm files to build. *)
Definition config_part_001 : JsValue :=
  JsObject
    [ ("solidity", JsObject
         [ ("version", JsString "0.8.22");
           ("npmFilesToBuild", JsArray
              [ JsString "@openzeppelin/contracts/proxy/transparent/TransparentUpgradeableProxy.sol";
                JsString "@openzeppelin/contracts/proxy/transparent/ProxyAdmin.sol";
                JsString "@openzeppelin/contracts/proxy/ERC1967/ERC1967Proxy.sol";
                JsString "@openzeppelin/contracts/proxy/beacon/UpgradeableBeacon.sol";
                JsString "@openzeppelin/contracts/proxy/beacon/BeaconProxy.sol" ]) ]);
      ("paths", JsObject
         [ ("tests", JsObject [ ("solidity", JsString "./test/solidity") ]) ]);
      ("test", JsObject
         [ ("solidity", JsObject
              [ ("ffi", JsBool true);
                ("fsPermissions", JsObject
                   [ ("readFile", JsArray
                        [ JsString "./hardhat.config.ts";
                          JsString "./artifacts/**/*.json" ]);
                     ("readDirectory", JsArray
                        [ JsString "./artifacts";
                          JsString "./artifacts/contracts" ]) ]) ]) ]) ].

Definition is_string (o : option JsValue) : bool :=
  match o with Some (JsString _) => true | _ => false end.

Definition is_array (o : option JsValue) : bool :=
  match o with Some (JsArray _) => true | _ => false end.

Definition specifies_compiler_version (c : JsValue) : bool :=
  is_string (at_path ["solidity"; "version"] c).

(** In [HardhatUserConfig] the directory of the main Solidity sources
    is overridden under [paths.sources], that of the Solidity tests
    under [paths.tests.solidity]. *)
Definition overrides_main_sources (c : JsValue) : bool :=
  match at_path ["paths"; "sources"] c with Some _ => true | None => false end.

Definition overrides_test_sources (c : JsValue) : bool :=
  is_string (at_path ["paths"; "tests"; "solidity"] c).

Definition enables_ffi (c : JsValue) : bool :=
  match at_path ["test"; "solidity"; "ffi"] c with
  | Some (JsBool b) => b
  | _ => false
  end.

Definition lists_readable_files (c : JsValue) : bool :=
  is_array (at_path ["test"; "solidity"; "fsPermissions"; "readFile"] c).

Definition lists_readable_directories (c : JsValue) : bool :=
  is_array (at_path ["test"; "solidity"; "fsPermissions"; "readDirectory"] c).

(** The configuration surface as the specification words it. *)
Definition surface_with_both_overrides (c : JsValue) : bool :=
  specifies_compiler_version c
  && overrides_main_sources c && overrides_test_sources c
  && enables_ffi c
  && lists_readable_files c && lists_readable_directories c.

(** The same surface with the test-sources override only. *)
Definition surface_with_test_override (c : JsValue) : bool :=
  specifies_compiler_version c
  && negb (overrides_main_sources c) && overrides_test_sources c
  && enables_ffi c
  && lists_readable_files c && lists_readable_directories c.

End Config.

(** ** Example inputs *)

Module Samples.
Import Abi Artifacts Forge Env Hardhat.
Local Open Scope string_scope.

(** A toolchain whose compiler output is a few opcode bytes per
    contract and whose upgrades library reverts. *)
Definition toolchain : Toolchain :=
  {| solc_SimpleContract := [x60; x80; x60; x40; x52];
     solc_Greeter := [x60; xa0; x60; x40];
     solc_TestContract := [x60; x80; x60; x40];
     test_address := 0x7FA9385bE102ac3EAc297483Dd6233D62b3e1496;
     upgrades := fun _ _ _ _ w => (w, Reverted "unsupported cheatcode") |}.

Definition empty_disk : Disk := {| contracts_scope := []; tests_scope := [] |}.

(** A cheatcode environment in which every lookup fails. *)
Definition failing_env : Env := env_of toolchain [].


(** A cheatcode environment whose index holds SimpleContract's artifact. *)
Definition working_env : Env := env_of toolchain [SimpleContract_artifact toolchain].

End Samples.

(** ** Properties of the encoding *)

Section AbiFacts.
Import Abi.

Lemma byte_of_N_to_N (n : N) : Byte.to_N (byte_of_N n) = n mod 256.
Proof.
  unfold byte_of_N.
  destruct (Byte.of_N (n mod 256)) as [b|] eqn:E.
  - now apply Byte.to_of_N.
  - apply Byte.of_N_None_iff in E.
    pose proof (N.mod_upper_bound n 256 ltac:(lia)). lia.
Qed.

Lemma be_value_app (xs ys : bytes) (acc : N) :
  fold_left be_step (xs ++ ys) acc = fold_left be_step ys (fold_left be_step xs acc).
Proof. apply fold_left_app. Qed.

Lemma be_value_bytes (len : nat) (v : N) :
  be_value (be_bytes len v) = v mod 256 ^ N.of_nat len.
Proof.
  unfold be_value. revert v.
  induction len as [|k IH]; intros v.
  - cbn. now rewrite N.mod_1_r.
  - cbn [be_bytes]. rewrite be_value_app, IH. cbn [fold_left].
    unfold be_step. rewrite byte_of_N_to_N.
    rewrite Nat2N.inj_succ, N.pow_succ_r'.
    rewrite N.Div0.mod_mul_r. lia.
Qed.

Lemma be_bytes_length (len : nat) (v : N) : length (be_bytes len v) = len.
Proof.
  revert v. induction len as [|k IH]; intros v; cbn [be_bytes].
  - reflexivity.
  - rewrite length_app, IH. cbn. lia.
Qed.

Lemma decode_encode_uint256 (v : N) (rest : bytes) :
  decode_uint256 (encode_uint256 v ++ rest) = Some (wrap256 v).
Proof.
  unfold decode_uint256, encode_uint256.
  rewrite length_app, be_bytes_length.
  destruct (Nat.ltb_spec (32 + length rest) 32) as [H|_]; [lia|].
  rewrite firstn_app, be_bytes_length.
  replace (32 - 32)%nat with 0%nat by lia.
  rewrite firstn_O, app_nil_r.
  rewrite firstn_all2 by (rewrite be_bytes_length; lia).
  rewrite be_value_bytes.
  unfold wrap256, modulus256.
  change (256 ^ N.of_nat 32) with (2 ^ 256).
  now rewrite N.Div0.mod_mod.
Qed.

End AbiFacts.

(** ** SimpleContract *)

Section SimpleContractFacts.
Import Abi SimpleContract.

Lemma wrap256_small (v : N) : is_uint256 v -> wrap256 v = v.
Proof. unfold is_uint256, wrap256. intros H. now apply N.mod_small. Qed.

Lemma wrap256_is_uint256 (v : N) : is_uint256 (wrap256 v).
Proof.
  unfold is_uint256, wrap256. apply N.mod_upper_bound. unfold modulus256. lia.
Qed.

Lemma sload_sstore_eq (slot v : N) (s : Storage) :
  sload (sstore slot v s) slot = wrap256 v.
Proof. unfold sload, sstore. now rewrite lookup_insert_eq. Qed.

Lemma sload_sstore_ne (slot k v : N) (s : Storage) :
  k <> slot -> sload (sstore slot v s) k = sload s k.
Proof. intros H. unfold sload, sstore. now rewrite lookup_insert_ne. Qed.

Lemma sload_empty (k : N) : sload ∅ k = 0.
Proof. unfold sload. now rewrite lookup_empty. Qed.

(** C10: for every uint256 [v], constructing SimpleContract with [v]
    gives [value() == v], and from every prior storage and for every
    caller [setValue(v)] succeeds and leaves [value() == v]; slot 0
    (value) is the only storage slot either of them writes. *)
Theorem SimpleContract_last_write_wins (v : N) (Hv : is_uint256 v) :
  (forall m m' : Msg,
      exists s, constructor m v = Ok s
                /\ value m' s = Ok v
                /\ forall k, k <> value_slot -> sload s k = 0)
  /\ (forall (m m' : Msg) (s0 : Storage),
         exists s, setValue m v s0 = Ok s
                   /\ value m' s = Ok v
                   /\ forall k, k <> value_slot -> sload s k = sload s0 k).
Proof.
  split.
  - intros m m'. eexists. split; [reflexivity|]. split.
    + unfold value. now rewrite sload_sstore_eq, wrap256_small.
    + intros k Hk. now rewrite sload_sstore_ne, sload_empty.
  - intros m m' s0. eexists. split; [reflexivity|]. split.
    + unfold value. now rewrite sload_sstore_eq, wrap256_small.
    + intros k Hk. now rewrite sload_sstore_ne.
Qed.

(** The statement at [v = 42], the value the fixture sets. *)
Lemma SimpleContract_last_write_wins_witness :
  is_uint256 42
  /\ (forall m m' : Msg,
         exists s, constructor m 42 = Ok s
                   /\ value m' s = Ok 42
                   /\ forall k, k <> value_slot -> sload s k = 0)
  /\ (forall (m m' : Msg) (s0 : Storage),
         exists s, setValue m 42 s0 = Ok s
                   /\ value m' s = Ok 42
                   /\ forall k, k <> value_slot -> sload s k = sload s0 k).
Proof.
  assert (H : is_uint256 42) by (unfold is_uint256, modulus256; lia).
  split; [exact H|].
  exact (SimpleContract_last_write_wins 42 H).
Defined.

End SimpleContractFacts.

(** ** The configuration objects *)

Section ConfigFacts.
Import Config.
Local Open Scope string_scope.

(** C9 (the claim as stated fails): neither configuration object
    overrides the directory of the main sources, so neither has the
    surface with both overrides. *)
Lemma config_lacks_main_sources_override :
  surface_with_both_overrides config = false
  /\ surface_with_both_overrides config_part_001 = false.
Proof. split; reflexivity. Qed.

(** C9 (amended): each configuration object specifies a compiler
    version, a source-directory override for the Solidity test sources
    and none for the main sources ([paths] has the one key [tests]),
    the FFI toggle set to true, and the allow-lists of readable files
    and readable directories. *)
Theorem config_surface :
  Forall (fun c =>
            surface_with_test_override c = true
            /\ option_map keys (at_path ["paths"] c) = Some ["tests"]
            /\ at_path ["paths"; "tests"; "solidity"] c = Some (JsString "./test/solidity")
            /\ at_path ["test"; "solidity"; "ffi"] c = Some (JsBool true)
            /\ at_path ["test"; "solidity"; "fsPermissions"; "readFile"] c
               = Some (JsArray [JsString "./hardhat.config.ts";
                                JsString "./artifacts/**/*.json"])
            /\ at_path ["test"; "solidity"; "fsPermissions"; "readDirectory"] c
               = Some (JsArray [JsString "./artifacts";
                                JsString "./artifacts/contracts"]))
         [config; config_part_001]
  /\ at_path ["solidity"; "version"] config = Some (JsString "0.8.20")
  /\ at_path ["solidity"; "version"] config_part_001 = Some (JsString "0.8.22").
Proof.
  split; [|split; reflexivity].
  repeat constructor.
Qed.

End ConfigFacts.

(** ** The reproduce script *)

Section ShellFacts.
Import Artifacts Hardhat Shell.
Local Open Scope string_scope.

Lemma rm_rf_clears (d : Disk) :
  rm_rf ["artifacts"; "cache"] d = {| contracts_scope := []; tests_scope := [] |}.
Proof. reflexivity. Qed.

(** The script's run, for any behaviour of the command behind [npx]. *)
Lemma run_reproduce (npx : list string -> Disk -> Disk * N) (d : Disk) :
  run (Shell.exec npx) reproduce d
  = {| final := fst (npx (tl test_command) (rm_rf ["artifacts"; "cache"] d));
       status := snd (npx (tl test_command) (rm_rf ["artifacts"; "cache"] d));
       executed := [rm_command; test_command] |}.
Proof.
  unfold run, reproduce, rm_command, test_command.
  cbn [options errexit commands run_from Shell.exec N.eqb negb andb tl].
  destruct (npx _ _) as [d' code]; cbn [fst snd].
  destruct (code =? 0)%N; reflexivity.
Qed.

(** C7: every run of the reproduce script executes exactly two
    commands, in this order: [rm -rf artifacts cache], once, which
    leaves both artifact directories empty, and then the single command
    [npx hardhat test solidity test/solidity/Test.t.sol], which gets
    these arguments and no others and starts from the emptied
    directories. *)
Theorem reproduce_runs_two_steps (npx : list string -> Disk -> Disk * N) (d : Disk) :
  let r := run (Shell.exec npx) reproduce d in
  let cleaned := {| contracts_scope := []; tests_scope := [] |} in
  executed r = [ ["rm"; "-rf"; "artifacts"; "cache"];
                 ["npx"; "hardhat"; "test"; "solidity"; "test/solidity/Test.t.sol"] ]
  /\ length (List.filter (fun c => String.eqb (hd EmptyString c) "rm") (executed r)) = 1%nat
  /\ fst (Shell.exec npx ["rm"; "-rf"; "artifacts"; "cache"] d) = cleaned
  /\ final r = fst (npx ["hardhat"; "test"; "solidity"; "test/solidity/Test.t.sol"] cleaned)
  /\ status r = snd (npx ["hardhat"; "test"; "solidity"; "test/solidity/Test.t.sol"] cleaned).
Proof.
  cbv zeta. rewrite run_reproduce. cbn [executed final status].
  repeat split.
Qed.

(** C8: whenever the test command the script runs reports a failing
    test, the script exits with a non-zero status: its status is the
    test command's. *)
Theorem reproduce_propagates_test_failure
    (tool : list string -> Disk -> Disk * Report) (d : Disk) :
  has_failure
    (snd (tool ["hardhat"; "test"; "solidity"; "test/solidity/Test.t.sol"]
               (rm_rf ["artifacts"; "cache"] d))) = true ->
  status (run (Shell.exec (with_exit_status tool)) reproduce d) <> 0.
Proof.
  intros Hfail. rewrite run_reproduce. cbn [status tl test_command].
  unfold with_exit_status.
  destruct (tool _ _) as [d' r]; cbn [snd] in *.
  unfold exit_status. rewrite Hfail. discriminate.
Qed.

(** The statement for the modelled test command on the sample
    toolchain, starting from an empty disk: the fixtures fail and the
    script exits non-zero. *)
Lemma reproduce_propagates_test_failure_witness :
  status (run (Shell.exec
                 (with_exit_status
                    (hardhat Samples.toolchain
                       (project Samples.toolchain (Test_t_sol Samples.toolchain))
                       TestContract.fixtures)))
              reproduce Samples.empty_disk) <> 0.
Proof.
  apply (reproduce_propagates_test_failure
           (hardhat Samples.toolchain
              (project Samples.toolchain (Test_t_sol Samples.toolchain))
              TestContract.fixtures)
           Samples.empty_disk).
  vm_compute. reflexivity.
Defined.

End ShellFacts.

(** ** The lookup-by-name capability *)

Section LookupFacts.
Import Abi Artifacts Forge Env Hardhat.
Local Open Scope string_scope.

Lemma find_none_of_existsb {A} (f : A -> bool) (l : list A) :
  existsb f l = false -> find f l = None.
Proof.
  induction l as [|x l IH]; cbn; [reflexivity|].
  destruct (f x); cbn; [discriminate|exact IH].
Qed.

Lemma find_some_of_existsb {A} (f : A -> bool) (l : list A) :
  existsb f l = true -> exists a, find f l = Some a /\ f a = true.
Proof.
  induction l as [|x l IH]; cbn; [discriminate|].
  destruct (f x) eqn:E; cbn; [eauto|exact IH].
Qed.

(** An identifier with no matching artifact in any scope is not found. *)
Lemma lookup_absent (d : Disk) (id : string) :
  existsb (matches id) (on_disk d) = false ->
  lookup (load_index d) id = Reverted no_matching_artifact.
Proof.
  unfold on_disk, load_index, lookup. rewrite existsb_app.
  intros H. apply orb_false_elim in H as [Ht _].
  now rewrite (find_none_of_existsb _ _ Ht).
Qed.

(** An identifier with a matching artifact in the test scope is found. *)
Lemma lookup_test_scope (d : Disk) (id : string) :
  existsb (matches id) (tests_scope d) = true ->
  is_ok (lookup (load_index d) id) = true.
Proof.
  intros H. unfold load_index, lookup.
  destruct (find_some_of_existsb _ _ H) as (a & -> & _). reflexivity.
Qed.


(** C1 (the code at the failing input): after a full compilation the
    artifact of SimpleContract, compiled from the main sources, is on
    disk and matches ["SimpleContract.sol"], yet the lookup reverts
    with the not-found message and the fixture that expects bytecode
    fails. *)
Theorem lookup_misses_main_scope_contract (tc : Toolchain) (d : Disk) :
  let disk := compile_all (project tc (Test_t_sol tc)) d in
  let index := load_index disk in
  In (SimpleContract_artifact tc) (contracts_scope disk)
  /\ matches "SimpleContract.sol" (SimpleContract_artifact tc) = true
  /\ lookup index "SimpleContract.sol" = Reverted no_matching_artifact
  /\ run_test (TestContract.test_LOCAL_vmGetCode_SimpleContract_SHOULD_PASS (env_of tc index))
     = Failed no_matching_artifact
  /\ lookup index "Test.t.sol" = Ok (solc_TestContract tc).
Proof.
  cbv zeta. repeat split.
  - now left.
Qed.



(** C3 (the code at the failing input): a lookup with no matching
    artifact in any scope fails, but the converse does not hold: after
    a full compilation an artifact matching ["SimpleContract.sol"]
    exists on disk and the lookup still fails. *)
Theorem lookup_fails_despite_artifact (tc : Toolchain) (d : Disk) :
  (forall (d' : Disk) (id : string),
      existsb (matches id) (on_disk d') = false ->
      is_ok (lookup (load_index d') id) = false)
  /\ (let disk := compile_all (project tc (Test_t_sol tc)) d in
      existsb (matches "SimpleContract.sol") (on_disk disk) = true
      /\ is_ok (lookup (load_index disk) "SimpleContract.sol") = false).
Proof.
  split.
  - intros d' id H. now rewrite (lookup_absent d' id H).
  - cbv zeta. split; reflexivity.
Qed.

(** C4: whatever was on disk before, after [rm -rf artifacts cache]
    and the test-sources compilation pass alone, the lookup of
    ["SimpleContract.sol"] reverts with ["no matching artifact found"]
    and [testGetCode] fails with that message, although the test file
    imports SimpleContract.sol and the import resolves to a source file
    of the project; this holds for each text of the test file, and a
    run of the reproduce script ends with a non-zero status. *)
Theorem defect_scenario (tc : Toolchain) (d0 : Disk) :
  Forall (fun f =>
            let p := project tc f in
            let d := compile_tests p (rm_rf ["artifacts"; "cache"] d0) in
            lookup (load_index d) "SimpleContract.sol"
            = Reverted "no matching artifact found"
            /\ run_test (TestContract_part_004.testGetCode (env_of tc (load_index d)))
               = Failed "no matching artifact found"
            /\ existsb (matches "SimpleContract.sol") (on_disk d) = false
            /\ In "../../contracts/SimpleContract.sol" (imports f)
            /\ Paths.resolve_import (path f) "../../contracts/SimpleContract.sol"
               = Some (path (SimpleContract_sol tc))
            /\ importable p f "../../contracts/SimpleContract.sol" = true)
         (test_files tc)
  /\ Shell.status
       (Shell.run
          (Shell.exec
             (with_exit_status
                (hardhat tc (project tc (Test_t_sol_part_004 tc))
                   TestContract_part_004.fixtures)))
          Shell.reproduce d0) = 1%N.
Proof.
  split.
  - unfold test_files.
    repeat apply List.Forall_cons; try apply List.Forall_nil; cbv beta zeta;
      (split; [reflexivity|]); (split; [reflexivity|]); (split; [reflexivity|]);
      (split; [cbn; tauto|]); split; reflexivity.
  - rewrite run_reproduce. reflexivity.
Qed.

End LookupFacts.

(** ** Deployment through looked-up bytecode *)

Section DeployFacts.
Import Abi Artifacts Forge Env Evm SimpleContract Hardhat.
Local Open Scope string_scope.

Lemma byte_eqb_refl (b : byte) : Byte.eqb b b = true.
Proof. now apply Byte.byte_dec_lb. Qed.

Lemma strip_prefix_app (pre rest : bytes) : strip_prefix pre (pre ++ rest) = Some rest.
Proof.
  induction pre as [|p pre IH]; cbn; [reflexivity|].
  now rewrite byte_eqb_refl.
Qed.

(** Creating from SimpleContract's creation bytecode followed by the
    encoded argument installs a SimpleContract constructed with it. *)
Lemma create_SimpleContract (env : Env) (v : N) (st : TestState) :
  is_uint256 v ->
  create env 0 (encodePacked (SimpleContract_creationCode env) (encode_uint256 v)) st
  = (set_world (install (sstore value_slot v ∅) (world st)) st,
     Ok (fresh_address (world st))).
Proof.
  intros Hv.
  unfold create, encodePacked. rewrite strip_prefix_app.
  rewrite <- (app_nil_r (encode_uint256 v)), decode_encode_uint256.
  cbn [N.eqb]. unfold constructor.
  now rewrite (wrap256_small v Hv).
Qed.

Lemma nonempty_length (code : bytes) : code <> [] -> (0 <? length code)%nat = true.
Proof. destruct code; [congruence|reflexivity]. Qed.

Lemma set_expecting_same (st : TestState) :
  expecting_revert st = false -> set_expecting false st = st.
Proof. destruct st; cbn; now intros ->. Qed.

Lemma value_call (env : Env) (a : N) (s : Storage) (st : TestState) :
  accounts (world st) !! a = Some s ->
  expecting_revert st = false ->
  SimpleContract_value env a st = (st, Ok (sload s value_slot)).
Proof.
  intros Ha He. unfold SimpleContract_value, external_call.
  rewrite He, (set_expecting_same st He), Ha. reflexivity.
Qed.

Lemma setValue_call (env : Env) (a v : N) (s : Storage) (st : TestState) :
  accounts (world st) !! a = Some s ->
  expecting_revert st = false ->
  SimpleContract_setValue env a v st
  = (set_world {| accounts := <[a := sstore value_slot v s]> (accounts (world st));
                  created := created (world st) |} st,
     Ok tt).
Proof.
  intros Ha He. unfold SimpleContract_setValue, external_call.
  rewrite He, (set_expecting_same st He), Ha. reflexivity.
Qed.

(** Given SimpleContract's creation bytecode, the deployment with the
    encoded argument 100 yields a contract at a non-zero address whose
    [value()] is 100, and [setValue(42)] then makes [value()] 42. *)
Lemma deploy_then_set (env : Env) (st : TestState) :
  expecting_revert st = false ->
  exists deployed st1 st2,
    create env 0 (encodePacked (SimpleContract_creationCode env) (encode_uint256 100)) st
    = (st1, Ok deployed)
    /\ deployed <> 0
    /\ SimpleContract_value env deployed st1 = (st1, Ok 100)
    /\ SimpleContract_setValue env deployed 42 st1 = (st2, Ok tt)
    /\ SimpleContract_value env deployed st2 = (st2, Ok 42).
Proof.
  intros He.
  assert (H100 : is_uint256 100) by (unfold is_uint256, modulus256; lia).
  assert (H42 : is_uint256 42) by (unfold is_uint256, modulus256; lia).
  eexists _, _, _. split; [now apply create_SimpleContract|].
  split; [unfold fresh_address; lia|].
  split.
  - erewrite value_call; [|apply lookup_insert_eq|exact He].
    now rewrite sload_sstore_eq, wrap256_small.
  - split.
    + erewrite setValue_call; [reflexivity|apply lookup_insert_eq|exact He].
    + erewrite value_call; [|apply lookup_insert_eq|exact He].
      now rewrite sload_sstore_eq, wrap256_small.
Qed.

(** With a lookup that returns SimpleContract's non-empty creation
    bytecode, both deployment fixtures pass. *)
Lemma deployment_fixtures_pass (env : Env) :
  getCode env "SimpleContract.sol" = Ok (SimpleContract_creationCode env) ->
  SimpleContract_creationCode env <> [] ->
  run_test (TestContract_part_003.testGetCodeAndCreate env) = Passed
  /\ run_test (TestContract.test_LOCAL_deployWithVmGetCode_SHOULD_PASS env) = Passed.
Proof.
  intros Hcode Hne.
  assert (H100 : is_uint256 100) by (unfold is_uint256, modulus256; lia).
  split.
  - unfold run_test, TestContract_part_003.testGetCodeAndCreate.
    unfold mbind, M_bind, bind, vm_getCode. cbn beta.
    rewrite Hcode, (nonempty_length _ Hne).
    cbv beta iota delta [assertTrue ret].
    rewrite (create_SimpleContract _ _ _ H100).
    reflexivity.
  - unfold run_test, TestContract.test_LOCAL_deployWithVmGetCode_SHOULD_PASS.
    unfold mbind, M_bind, bind, vm_getCode. cbn beta.
    rewrite Hcode.
    rewrite (create_SimpleContract _ _ _ H100).
    reflexivity.
Qed.

(** C5 (the code at the failing input): after a full compilation the
    artifact of SimpleContract is on disk, but the lookup of
    ["SimpleContract.sol"] reverts with the not-found message instead
    of returning bytecode, so the deployment fixtures fail at their
    first step. *)
Theorem deploy_scenario_stops_at_lookup (tc : Toolchain) (d : Disk) :
  let env003 := env_of tc (load_index (compile_all (project tc (Test_t_sol_part_003 tc)) d)) in
  let env := env_of tc (load_index (compile_all (project tc (Test_t_sol tc)) d)) in
  existsb (matches "SimpleContract.sol")
          (on_disk (compile_all (project tc (Test_t_sol_part_003 tc)) d)) = true
  /\ getCode env003 "SimpleContract.sol" = Reverted no_matching_artifact
  /\ run_test (TestContract_part_003.testGetCodeAndCreate env003)
     = Failed no_matching_artifact
  /\ run_test (TestContract.test_LOCAL_deployWithVmGetCode_SHOULD_PASS env)
     = Failed no_matching_artifact.
Proof.
  cbv zeta. repeat split.
Qed.

End DeployFacts.

(** ** Which fixtures expect a revert *)

Section ExpectRevertFacts.
Import Abi Forge Env Evm Hardhat.
Local Open Scope string_scope.

Lemma issued_record_getCode (id : string) (st : TestState) :
  issued_expectRevert (record_cheat (CheatGetCode id) st) = issued_expectRevert st.
Proof.
  unfold issued_expectRevert, record_cheat; cbn [cheats].
  rewrite existsb_app; cbn. now rewrite !orb_false_r.
Qed.

Lemma quiet_ret {A} (a : A) : quiet (mret a).
Proof. intros st. reflexivity. Qed.

Lemma quiet_revert {A} (r : string) : quiet (@revert A r).
Proof. intros st. reflexivity. Qed.

Lemma quiet_bind {A B} (c : M A) (k : A -> M B) :
  quiet c -> (forall a, quiet (k a)) -> quiet (c ≫= k).
Proof.
  intros Hc Hk st. unfold mbind, M_bind, bind.
  specialize (Hc st). destruct (c st) as [st' [a|r]]; cbn [fst] in *.
  - now rewrite Hk.
  - exact Hc.
Qed.

Lemma quiet_console_log (e : LogEntry) : quiet (console_log e).
Proof. intros st. reflexivity. Qed.

Lemma quiet_assertTrue (b : bool) (msg : string) : quiet (assertTrue b msg).
Proof. intros st. now destruct b. Qed.

Lemma quiet_assertEq (a b : N) (msg : string) : quiet (assertEq a b msg).
Proof. intros st. unfold assertEq. now destruct (a =? b)%N. Qed.

Lemma quiet_require (b : bool) (msg : string) : quiet (require b msg).
Proof. intros st. now destruct b. Qed.

Lemma quiet_vm_getCode (env : Env) (id : string) : quiet (vm_getCode env id).
Proof. intros st. apply issued_record_getCode. Qed.

Lemma quiet_Vm_getCode (env : Env) (addr : N) (id : string) :
  quiet (Vm_getCode env addr id).
Proof.
  unfold Vm_getCode. destruct (addr =? VM_ADDRESS)%N.
  - apply quiet_vm_getCode.
  - apply quiet_revert.
Qed.

Lemma quiet_create (env : Env) (callvalue : N) (initcode : bytes) :
  quiet (create env callvalue initcode).
Proof.
  intros st. unfold create.
  destruct (strip_prefix _ _) as [args|]; [|reflexivity].
  destruct (decode_uint256 args) as [v|]; [|reflexivity].
  destruct (callvalue =? 0)%N; reflexivity.
Qed.

Lemma quiet_external_call {A} (dflt : A) (callee : M A) :
  quiet callee -> quiet (external_call dflt callee).
Proof.
  intros Hc st. unfold external_call.
  specialize (Hc (set_expecting false st)).
  destruct (callee (set_expecting false st)) as [st' [a|r]]; cbn [fst] in Hc;
    destruct (expecting_revert st); cbn [fst]; exact Hc.
Qed.

Lemma quiet_try_catch {A B} (call : M A) (on_ok : A -> M B) (on_err : M B) :
  quiet call -> (forall a, quiet (on_ok a)) -> quiet on_err ->
  quiet (try_catch call on_ok on_err).
Proof.
  intros Hc Hok Herr st. unfold try_catch.
  specialize (Hc st). destruct (call st) as [st' [a|r]]; cbn [fst] in Hc.
  - now rewrite Hok.
  - now rewrite Herr.
Qed.

Lemma quiet_for_each {A} (xs : list A) (body : A -> M unit) :
  (forall x, quiet (body x)) -> quiet (for_each xs body).
Proof.
  intros Hb. induction xs as [|x xs IH]; cbn [for_each].
  - apply quiet_ret.
  - apply quiet_bind; [apply Hb|intros _; exact IH].
Qed.

Lemma quiet_value (env : Env) (a : N) : quiet (SimpleContract_value env a).
Proof.
  apply quiet_external_call. intros st.
  destruct (accounts (world st) !! a); reflexivity.
Qed.

Lemma quiet_setValue (env : Env) (a v : N) : quiet (SimpleContract_setValue env a v).
Proof.
  apply quiet_external_call. intros st.
  destruct (accounts (world st) !! a); reflexivity.
Qed.

Lemma quiet_Upgrades (env : Env) (c : string) (o : N) (data : GreeterInitialize)
    (opts : Options) :
  quiet (Upgrades_deployTransparentProxy env c o data opts).
Proof.
  intros st. unfold Upgrades_deployTransparentProxy.
  destruct (deployTransparentProxy env c o data opts (world st)); reflexivity.
Qed.

(** Both ways the fixtures reach the cheatcode are the same call. *)
Lemma Vm_at_cheatcode_address (env : Env) (id : string) :
  Vm_getCode env TestContract.CHEATCODE_ADDRESS id = vm_getCode env id.
Proof. reflexivity. Qed.

Create HintDb quiet.
#[local] Hint Resolve quiet_ret quiet_revert quiet_bind quiet_console_log
  quiet_assertTrue quiet_assertEq quiet_require quiet_vm_getCode quiet_Vm_getCode
  quiet_create quiet_external_call quiet_try_catch quiet_for_each quiet_value
  quiet_setValue quiet_Upgrades : quiet.

Ltac quiet_steps :=
  cbv zeta;
  repeat first
    [ apply quiet_bind; [|intros ?]
    | apply quiet_try_catch; [|intros ?|]
    | apply quiet_for_each; intros ?
    | solve [auto with quiet] ].

Lemma quiet_uses {t : M unit} : quiet t -> uses_expectRevert t = false.
Proof. intros H. unfold uses_expectRevert. now rewrite H. Qed.

Lemma quiet_LOCAL_SimpleContract (env : Env) :
  quiet (TestContract.test_LOCAL_vmGetCode_SimpleContract_SHOULD_PASS env).
Proof. unfold TestContract.test_LOCAL_vmGetCode_SimpleContract_SHOULD_PASS. quiet_steps. Qed.

Lemma quiet_LOCAL_Greeter (env : Env) :
  quiet (TestContract.test_LOCAL_vmGetCode_Greeter_SHOULD_PASS env).
Proof. unfold TestContract.test_LOCAL_vmGetCode_Greeter_SHOULD_PASS. quiet_steps. Qed.

Lemma quiet_LOCAL_deploy (env : Env) :
  quiet (TestContract.test_LOCAL_deployWithVmGetCode_SHOULD_PASS env).
Proof. unfold TestContract.test_LOCAL_deployWithVmGetCode_SHOULD_PASS. quiet_steps. Qed.

Lemma quiet_PACKAGE_vmGetCode (env : Env) :
  quiet (TestContract.test_PACKAGE_vmGetCode_TransparentProxy_EXPECT_FAIL env).
Proof. unfold TestContract.test_PACKAGE_vmGetCode_TransparentProxy_EXPECT_FAIL. quiet_steps. Qed.

Lemma quiet_PACKAGE_viaCheatcodeAddress (env : Env) :
  quiet (TestContract.test_PACKAGE_vmGetCode_viaCheatcodeAddress_EXPECT_FAIL env).
Proof.
  unfold TestContract.test_PACKAGE_vmGetCode_viaCheatcodeAddress_EXPECT_FAIL. quiet_steps.
Qed.

Lemma quiet_PACKAGE_deploy (env : Env) :
  quiet (TestContract.test_PACKAGE_deployTransparentProxy_EXPECT_FAIL env).
Proof. unfold TestContract.test_PACKAGE_deployTransparentProxy_EXPECT_FAIL. quiet_steps. Qed.

Lemma quiet_DIAGNOSTIC_show (env : Env) :
  quiet (TestContract.test_DIAGNOSTIC_showArtifactAvailability env).
Proof. unfold TestContract.test_DIAGNOSTIC_showArtifactAvailability. quiet_steps. Qed.

Lemma quiet_DIAGNOSTIC_compare (env : Env) :
  quiet (TestContract.test_DIAGNOSTIC_compareMethods env).
Proof. unfold TestContract.test_DIAGNOSTIC_compareMethods. quiet_steps. Qed.

Lemma quiet_part_003 (env : Env) :
  quiet (TestContract_part_003.testGetCode env)
  /\ quiet (TestContract_part_003.testGetCodeAndCreate env)
  /\ quiet (TestContract_part_003.testGetCodeFromPackage env)
  /\ quiet (TestContract_part_004.testGetCode env).
Proof.
  unfold TestContract_part_003.testGetCode, TestContract_part_003.testGetCodeAndCreate,
    TestContract_part_003.testGetCodeFromPackage, TestContract_part_004.testGetCode.
  repeat split; quiet_steps.
Qed.

(** [test_WORKAROUND...] issues [vm.expectRevert], whatever the lookup
    answers. *)
Lemma WORKAROUND_uses_expectRevert (env : Env) :
  uses_expectRevert
    (TestContract.test_WORKAROUND_expectRevert_onPackageContract_SHOULD_PASS env) = true.
Proof.
  unfold uses_expectRevert,
    TestContract.test_WORKAROUND_expectRevert_onPackageContract_SHOULD_PASS,
    TestContract.tryGetCodeForPackageContract.
  unfold mbind, M_bind, bind, external_call, expectRevert, vm_getCode, console_log.
  cbn. destruct (getCode env _); reflexivity.
Qed.

Lemma WORKAROUND_passes_iff_lookup_fails (env : Env) :
  passed (run_test
            (TestContract.test_WORKAROUND_expectRevert_onPackageContract_SHOULD_PASS env))
  = negb (is_ok (getCode env TestContract.package_contract)).
Proof.
  unfold run_test,
    TestContract.test_WORKAROUND_expectRevert_onPackageContract_SHOULD_PASS,
    TestContract.tryGetCodeForPackageContract, TestContract.package_contract.
  unfold mbind, M_bind, bind, external_call, expectRevert, vm_getCode, console_log.
  cbn. destruct (getCode env _); reflexivity.
Qed.

Lemma PACKAGE_vmGetCode_fails_when_lookup_fails (env : Env) :
  is_ok (getCode env TestContract.package_contract) = false ->
  passed (run_test
            (TestContract.test_PACKAGE_vmGetCode_TransparentProxy_EXPECT_FAIL env))
  = false.
Proof.
  unfold run_test, TestContract.test_PACKAGE_vmGetCode_TransparentProxy_EXPECT_FAIL,
    TestContract.package_contract.
  unfold mbind, M_bind, bind, vm_getCode, console_log.
  cbn. destruct (getCode env _); [discriminate|reflexivity].
Qed.

(** Whatever the lookup answers for the package contract, one of the
    two fixtures that look it up fails: the unwrapped one when the
    lookup fails, the wrapped one when it succeeds. *)
Lemma suite_always_has_failure (env : Env) :
  has_failure (run_suite (TestContract.fixtures env)) = true.
Proof.
  unfold has_failure. apply existsb_exists.
  destruct (is_ok (getCode env TestContract.package_contract)) eqn:E.
  - exists ("test_WORKAROUND_expectRevert_onPackageContract_SHOULD_PASS",
            run_test (TestContract.test_WORKAROUND_expectRevert_onPackageContract_SHOULD_PASS env)).
    split.
    + unfold run_suite, TestContract.fixtures. cbn [map fst snd]. do 8 right. now left.
    + cbn [snd]. now rewrite WORKAROUND_passes_iff_lookup_fails, E.
  - exists ("test_PACKAGE_vmGetCode_TransparentProxy_EXPECT_FAIL",
            run_test (TestContract.test_PACKAGE_vmGetCode_TransparentProxy_EXPECT_FAIL env)).
    split.
    + unfold run_suite, TestContract.fixtures. cbn [map fst snd]. do 3 right. now left.
    + cbn [snd]. now rewrite (PACKAGE_vmGetCode_fails_when_lookup_fails env E).
Qed.

(** C6 (the claim as stated fails): there is no lookup behaviour under
    which the package lookup fails and the suite of Test.t.sol reports
    success. *)
Lemma suite_cannot_pass_under_defect :
  ~ exists env : Env,
      is_ok (getCode env TestContract.package_contract) = false
      /\ has_failure (run_suite (TestContract.fixtures env)) = false.
Proof.
  intros (env & _ & H). rewrite suite_always_has_failure in H. discriminate.
Qed.

(** C6 (amended): exactly one test fixture wraps the package-scope
    lookup in an expect-revert assertion,
    [test_WORKAROUND_expectRevert_onPackageContract_SHOULD_PASS], and
    that fixture passes precisely when the wrapped lookup of
    ["TransparentUpgradeableProxy.sol:TransparentUpgradeableProxy"]
    fails; so this fixture reports success while the defect is present,
    whereas the suite does not: the unwrapped fixture
    [test_PACKAGE_vmGetCode_TransparentProxy_EXPECT_FAIL] fails exactly
    then. *)
Theorem expectRevert_fixture (env : Env) :
  map fst (List.filter (fun t => uses_expectRevert (snd t)) (TestContract.fixtures env))
  = ["test_WORKAROUND_expectRevert_onPackageContract_SHOULD_PASS"]
  /\ List.filter (fun t => uses_expectRevert (snd t))
            (TestContract_part_003.fixtures env ++ TestContract_part_004.fixtures env)%list
     = []
  /\ passed (run_test
               (TestContract.test_WORKAROUND_expectRevert_onPackageContract_SHOULD_PASS env))
     = negb (is_ok (getCode env TestContract.package_contract))
  /\ passed (run_test
               (TestContract.test_PACKAGE_vmGetCode_TransparentProxy_EXPECT_FAIL env))
     && negb (is_ok (getCode env TestContract.package_contract)) = false
  /\ has_failure (run_suite (TestContract.fixtures env)) = true.
Proof.
  split; [|split; [|split; [|split]]].
  - unfold TestContract.fixtures. cbn [List.filter snd].
    rewrite (quiet_uses (quiet_LOCAL_SimpleContract env)),
      (quiet_uses (quiet_LOCAL_Greeter env)),
      (quiet_uses (quiet_LOCAL_deploy env)),
      (quiet_uses (quiet_PACKAGE_vmGetCode env)),
      (quiet_uses (quiet_PACKAGE_viaCheatcodeAddress env)),
      (quiet_uses (quiet_PACKAGE_deploy env)),
      (quiet_uses (quiet_DIAGNOSTIC_show env)),
      (quiet_uses (quiet_DIAGNOSTIC_compare env)),
      (WORKAROUND_uses_expectRevert env).
    reflexivity.
  - destruct (quiet_part_003 env) as (H1 & H2 & H3 & H4).
    unfold TestContract_part_003.fixtures, TestContract_part_004.fixtures.
    cbn [app List.filter snd].
    now rewrite (quiet_uses H1), (quiet_uses H2), (quiet_uses H3), (quiet_uses H4).
  - apply WORKAROUND_passes_iff_lookup_fails.
  - destruct (is_ok (getCode env TestContract.package_contract)) eqn:E; cbn.
    + apply andb_false_r.
    + now rewrite (PACKAGE_vmGetCode_fails_when_lookup_fails env E).
  - apply suite_always_has_failure.
Qed.

End ExpectRevertFacts.

(** ** More on the ABI encoding the fixtures use *)

Section AbiRoundTrip.
Import Abi Evm.

Lemma be_fold_bound (bs : bytes) (acc : N) :
  fold_left be_step bs acc < (acc + 1) * 256 ^ N.of_nat (length bs).
Proof.
  revert acc. induction bs as [|b bs IH]; intros acc.
  - cbn. lia.
  - cbn [fold_left length]. rewrite Nat2N.inj_succ, N.pow_succ_r'.
    specialize (IH (be_step acc b)). unfold be_step in *.
    pose proof (Byte.to_N_bounded b) as Hb.
    assert (0 < 256 ^ N.of_nat (length bs)) by (apply N.neq_0_lt_0, N.pow_nonzero; lia).
    nia.
Qed.

Lemma be_value_bound (bs : bytes) : be_value bs < 256 ^ N.of_nat (length bs).
Proof. unfold be_value. pose proof (be_fold_bound bs 0). lia. Qed.

(** [abi.encode] of a uint256 is one 32-byte word; decoding it gives
    the value back whatever bytes follow; two values with the same
    encoding are equal; and [abi.encodePacked(code, args)] is as long
    as both parts together, with [args] recovered by dropping [code]. *)
Theorem abi_encode_roundtrip (v w : N) (code rest : bytes) :
  is_uint256 v -> is_uint256 w ->
  length (encode_uint256 v) = 32%nat
  /\ decode_uint256 (encode_uint256 v ++ rest) = Some v
  /\ (encode_uint256 v = encode_uint256 w -> v = w)
  /\ length (encodePacked code (encode_uint256 v)) = (length code + 32)%nat
  /\ strip_prefix code (encodePacked code (encode_uint256 v)) = Some (encode_uint256 v).
Proof.
  intros Hv Hw. split; [apply be_bytes_length|]. split; [|split; [|split]].
  - now rewrite decode_encode_uint256, wrap256_small.
  - intros E.
    pose proof (decode_encode_uint256 v []) as Dv.
    pose proof (decode_encode_uint256 w []) as Dw.
    rewrite E, Dw in Dv. rewrite !wrap256_small in Dv by assumption. congruence.
  - unfold encodePacked, encode_uint256. now rewrite length_app, be_bytes_length.
  - apply strip_prefix_app.
Qed.

(** The statement for the fixture's argument 100 and the setter's 42. *)
Lemma abi_encode_roundtrip_witness :
  length (encode_uint256 100) = 32%nat
  /\ decode_uint256 (encode_uint256 100 ++ [x00]) = Some 100
  /\ (encode_uint256 100 = encode_uint256 42 -> 100 = 42)
  /\ length (encodePacked [x60; x80] (encode_uint256 100)) = (2 + 32)%nat
  /\ strip_prefix [x60; x80] (encodePacked [x60; x80] (encode_uint256 100))
     = Some (encode_uint256 100).
Proof.
  apply (abi_encode_roundtrip 100 42 [x60; x80] [x00]);
    unfold is_uint256, modulus256; lia.
Defined.

(** Decoding rejects data shorter than one word, and whatever it
    accepts is a uint256 read from the first 32 bytes only. *)
Theorem abi_decode_bounds (data : bytes) :
  match decode_uint256 data with
  | None => (length data < 32)%nat
  | Some x =>
      (32 <= length data)%nat
      /\ is_uint256 x
      /\ forall tail, decode_uint256 (firstn 32 data ++ tail) = Some x
  end.
Proof.
  unfold decode_uint256.
  destruct (Nat.ltb_spec (length data) 32) as [Hlt|Hge]; [exact Hlt|].
  assert (Hlen : length (firstn 32 data) = 32%nat) by (rewrite length_firstn; lia).
  split; [exact Hge|]. split.
  - unfold is_uint256, modulus256.
    pose proof (be_value_bound (firstn 32 data)) as Hb. rewrite Hlen in Hb.
    change (256 ^ N.of_nat 32) with (2 ^ 256) in Hb. exact Hb.
  - intros tail. rewrite length_app, Hlen.
    destruct (Nat.ltb_spec (32 + length tail) 32) as [H|_]; [lia|].
    rewrite firstn_app, Hlen. replace (32 - 32)%nat with 0%nat by lia.
    rewrite firstn_O, app_nil_r, firstn_firstn. now replace (Nat.min 32 32) with 32%nat by lia.
Qed.

End AbiRoundTrip.

(** ** More on SimpleContract *)

Section SimpleContractMore.
Import Abi Forge Env Evm SimpleContract.

(** Writes do not accumulate: a [setValue] after any earlier
    [setValue], or after the constructor, leaves the storage a single
    [setValue] (or constructor) with the later value would have left;
    the slots in use grow by slot 0 at most. *)
Theorem setValue_overwrites (m1 m2 : Msg) (v w : N) (s s1 : Storage) :
  setValue m1 v s = Ok s1 ->
  setValue m2 w s1 = setValue m2 w s
  /\ (forall s0, constructor m1 v = Ok s0 -> setValue m2 w s0 = constructor m2 w)
  /\ dom s1 = {[value_slot]} ∪ dom s.
Proof.
  unfold setValue, constructor, sstore. intros [= <-]. split; [|split].
  - now rewrite insert_insert_eq.
  - intros s0 [= <-]. now rewrite insert_insert_eq.
  - now rewrite dom_insert_L.
Qed.

(** The statement for the fixture's writes: 100, then 42. *)
Lemma setValue_overwrites_witness :
  setValue {| sender := 1 |} 42 (sstore value_slot 100 ∅)
  = setValue {| sender := 1 |} 42 ∅
  /\ (forall s0, constructor {| sender := 1 |} 100 = Ok s0 ->
                 setValue {| sender := 1 |} 42 s0 = constructor {| sender := 1 |} 42)
  /\ dom (sstore value_slot 100 (∅ : Storage)) = {[value_slot]} ∪ dom (∅ : Storage).
Proof.
  apply (setValue_overwrites {| sender := 1 |} {| sender := 1 |} 100 42 ∅
           (sstore value_slot 100 ∅)).
  reflexivity.
Defined.

Lemma is_uint256_small (n : N) : n < 2 ^ 64 -> is_uint256 n.
Proof.
  unfold is_uint256, modulus256. intros H.
  apply (N.lt_trans _ _ _ H). apply N.pow_lt_mono_r; lia.
Qed.

(** Deploying SimpleContract's creation bytecode followed by the
    encoding of [v] creates a contract at a non-zero address whose
    [value()] is [v]; [setValue(w)] on it succeeds and makes [value()]
    [w]; neither step touches any other account. *)
Theorem deploy_and_set (env : Env) (st : TestState) (v w : N) :
  is_uint256 v -> is_uint256 w -> expecting_revert st = false ->
  exists deployed st1 st2,
    create env 0 (encodePacked (SimpleContract_creationCode env) (encode_uint256 v)) st
    = (st1, Ok deployed)
    /\ deployed <> 0
    /\ SimpleContract_value env deployed st1 = (st1, Ok v)
    /\ SimpleContract_setValue env deployed w st1 = (st2, Ok tt)
    /\ SimpleContract_value env deployed st2 = (st2, Ok w)
    /\ forall other, other <> deployed ->
         accounts (world st1) !! other = accounts (world st) !! other
         /\ accounts (world st2) !! other = accounts (world st) !! other.
Proof.
  intros Hv Hw He.
  eexists _, _, _. split; [now apply create_SimpleContract|].
  split; [unfold fresh_address; lia|].
  split.
  - erewrite value_call; [|apply lookup_insert_eq|exact He].
    now rewrite sload_sstore_eq, wrap256_small.
  - split.
    + erewrite setValue_call; [reflexivity|apply lookup_insert_eq|exact He].
    + split.
      * erewrite value_call; [|apply lookup_insert_eq|exact He].
        now rewrite sload_sstore_eq, wrap256_small.
      * intros other Hne. cbn [world set_world install accounts].
        rewrite !lookup_insert_ne by congruence. now split.
Qed.

(** The statement for the fixture's values, from the initial state. *)
Lemma deploy_and_set_witness :
  exists deployed st1 st2,
    create Samples.failing_env 0
      (encodePacked (SimpleContract_creationCode Samples.failing_env) (encode_uint256 100))
      initial_state
    = (st1, Ok deployed)
    /\ deployed <> 0
    /\ SimpleContract_value Samples.failing_env deployed st1 = (st1, Ok 100)
    /\ SimpleContract_setValue Samples.failing_env deployed 42 st1 = (st2, Ok tt)
    /\ SimpleContract_value Samples.failing_env deployed st2 = (st2, Ok 42)
    /\ forall other, other <> deployed ->
         accounts (world st1) !! other = accounts (world initial_state) !! other
         /\ accounts (world st2) !! other = accounts (world initial_state) !! other.
Proof.
  apply (deploy_and_set Samples.failing_env initial_state 100 42).
  - apply is_uint256_small. lia.
  - apply is_uint256_small. lia.
  - reflexivity.
Defined.

End SimpleContractMore.

(** ** What each fixture reports *)

Section FixtureVerdicts.
Import Abi Forge Env Evm Hardhat.
Local Open Scope string_scope.

(** The verdict of a fixture that looks [id] up and asserts that the
    bytecode is not empty, failing with [msg] otherwise. *)
Lemma lookup_and_assert (env : Env) (id msg : string) :
  run_test (code ← vm_getCode env id; assertTrue (0 <? length code)%nat msg)
  = match getCode env id with
    | Ok [] => Failed msg
    | Ok (_ :: _) => Passed
    | Reverted r => Failed r
    end.
Proof.
  unfold run_test, mbind, M_bind, bind, vm_getCode.
  destruct (getCode env id) as [[|b code]|r]; reflexivity.
Qed.

(** The fixtures that look up a local contract pass exactly when the
    lookup returns non-empty bytecode; a failed lookup fails the
    fixture with the lookup's own reason, and empty bytecode fails it
    with the fixture's assertion message. *)
Theorem local_lookup_fixtures (env : Env) :
  let verdict id msg :=
    match getCode env id with
    | Ok [] => Failed msg
    | Ok (_ :: _) => Passed
    | Reverted r => Failed r
    end in
  run_test (TestContract_part_004.testGetCode env)
  = verdict "SimpleContract.sol" "assertion failed"
  /\ run_test (TestContract_part_003.testGetCode env)
     = verdict "SimpleContract.sol" "assertion failed"
  /\ run_test (TestContract_part_003.testGetCodeFromPackage env)
     = verdict "Greeter.sol" "Failed to get contract bytecode from package"
  /\ run_test (TestContract.test_LOCAL_vmGetCode_SimpleContract_SHOULD_PASS env)
     = verdict "SimpleContract.sol" "Local contract should be found"
  /\ run_test (TestContract.test_LOCAL_vmGetCode_Greeter_SHOULD_PASS env)
     = verdict "Greeter.sol" "Local contract should be found".
Proof.
  cbv zeta. repeat split; apply lookup_and_assert.
Qed.

(** The two package fixtures, through [vm] and through
    [Vm(CHEATCODE_ADDRESS)], always report the same pass or fail: both
    pass exactly when the lookup of the package contract returns
    non-empty bytecode, and both fail with the lookup's reason when it
    reverts. *)
Theorem package_lookup_fixtures (env : Env) :
  let direct := run_test (TestContract.test_PACKAGE_vmGetCode_TransparentProxy_EXPECT_FAIL env) in
  let via_address :=
    run_test (TestContract.test_PACKAGE_vmGetCode_viaCheatcodeAddress_EXPECT_FAIL env) in
  passed direct = passed via_address
  /\ passed direct
     = match getCode env TestContract.package_contract with
       | Ok (_ :: _) => true
       | _ => false
       end
  /\ match getCode env TestContract.package_contract with
     | Reverted r => direct = Failed r /\ via_address = Failed r
     | Ok _ => True
     end.
Proof.
  cbv zeta.
  unfold run_test, TestContract.test_PACKAGE_vmGetCode_TransparentProxy_EXPECT_FAIL,
    TestContract.test_PACKAGE_vmGetCode_viaCheatcodeAddress_EXPECT_FAIL,
    TestContract.package_contract.
  rewrite Vm_at_cheatcode_address.
  unfold mbind, M_bind, bind, vm_getCode, console_log. cbn.
  destruct (getCode env _) as [[|b code]|r]; cbn; auto.
Qed.

End FixtureVerdicts.

(** ** The diagnostic fixtures *)

Section DiagnosticFacts.
Import Abi Forge Env Evm.
Local Open Scope string_scope.

(** One round of the availability loop, for any list of identifiers. *)
Lemma availability_loop (env : Env) (ids : list string) (st : TestState) :
  for_each ids (fun c =>
    console_log (Log2 "Trying:" c);;
    try_catch (vm_getCode env c)
      (fun code => console_log (LogUint "  [FOUND] Length:" (N.of_nat (length code))))
      (console_log (Log1 "  [NOT FOUND]"));;
    console_log (Log1 EmptyString)) st
  = ({| world := world st;
        console :=
          (console st ++
           flat_map (fun c =>
                       [ Log2 "Trying:" c;
                         match getCode env c with
                         | Ok code => LogUint "  [FOUND] Length:" (N.of_nat (length code))
                         | Reverted _ => Log1 "  [NOT FOUND]"
                         end;
                         Log1 EmptyString ]) ids)%list;
        cheats := (cheats st ++ map CheatGetCode ids)%list;
        expecting_revert := expecting_revert st |},
     Ok tt).
Proof.
  revert st. induction ids as [|c ids IH]; intros st.
  - destruct st; cbn. now rewrite !app_nil_r.
  - cbn [for_each flat_map map]. unfold mbind, M_bind, bind at 1.
    unfold mbind, M_bind, bind, console_log, try_catch, vm_getCode.
    destruct (getCode env c) as [code|r]; cbn -[for_each flat_map map];
      rewrite IH; cbn [world console cheats expecting_revert record_log record_cheat set_world];
      rewrite <- !app_assoc; reflexivity.
Qed.

Lemma console_log_then {B} (e : LogEntry) (k : unit -> M B) (st : TestState) :
  (console_log e ≫= k) st = k tt (record_log e st).
Proof. reflexivity. Qed.

(** The availability diagnostic never fails, whatever the lookups
    answer: it looks up its six identifiers once each, in order, logs a
    header and three lines per identifier (the middle one telling found
    from not found), and leaves the chain state untouched. *)
Theorem availability_diagnostic (env : Env) (st : TestState) :
  let ids :=
    [ "SimpleContract.sol";
      "Greeter.sol";
      "TransparentUpgradeableProxy.sol:TransparentUpgradeableProxy";
      "@openzeppelin/contracts/proxy/transparent/TransparentUpgradeableProxy.sol:TransparentUpgradeableProxy";
      "contracts/proxy/transparent/TransparentUpgradeableProxy.sol:TransparentUpgradeableProxy";
      "node_modules/@openzeppelin/contracts/proxy/transparent/TransparentUpgradeableProxy.sol:TransparentUpgradeableProxy" ] in
  let r := TestContract.test_DIAGNOSTIC_showArtifactAvailability env st in
  snd r = Ok tt
  /\ world (fst r) = world st
  /\ expecting_revert (fst r) = expecting_revert st
  /\ cheats (fst r) = (cheats st ++ map CheatGetCode ids)%list
  /\ console (fst r)
     = (console st ++
        Log1 (TestContract.nl +:+ "=== DIAGNOSTIC: Artifact Availability ===" +:+ TestContract.nl)
        :: flat_map (fun c =>
                       [ Log2 "Trying:" c;
                         match getCode env c with
                         | Ok code => LogUint "  [FOUND] Length:" (N.of_nat (length code))
                         | Reverted _ => Log1 "  [NOT FOUND]"
                         end;
                         Log1 EmptyString ]) ids)%list
  /\ run_test (TestContract.test_DIAGNOSTIC_showArtifactAvailability env) = Passed.
Proof.
  cbv zeta. unfold run_test, TestContract.test_DIAGNOSTIC_showArtifactAvailability.
  cbv zeta. rewrite !console_log_then, !availability_loop.
  cbn [fst snd world console cheats expecting_revert record_log initial_state result_of].
  rewrite <- app_assoc. repeat split.
Qed.

(** The comparison diagnostic never fails either; for each of its two
    contracts the line logged for [vm.getCode] and the line logged for
    [Vm(CHEATCODE_ADDRESS).getCode] are the same, success when the
    lookup returns and failure when it reverts. *)
Theorem comparison_diagnostic (env : Env) (st : TestState) :
  let verdict id :=
    Log1 (if is_ok (getCode env id) then "    [SUCCESS]" else "    [FAILED]") in
  let r := TestContract.test_DIAGNOSTIC_compareMethods env st in
  snd r = Ok tt
  /\ world (fst r) = world st
  /\ cheats (fst r)
     = (cheats st ++
        [ CheatGetCode TestContract.package_contract;
          CheatGetCode TestContract.package_contract;
          CheatGetCode "Greeter.sol";
          CheatGetCode "Greeter.sol" ])%list
  /\ console (fst r)
     = (console st ++
        [ Log1 (TestContract.nl +:+ "=== DIAGNOSTIC: Comparing vm.getCode() methods ===" +:+ TestContract.nl);
          Log2 "Package contract:" TestContract.package_contract;
          Log1 "  Method 1 (vm.getCode()):";
          verdict TestContract.package_contract;
          Log1 "  Method 2 (Vm(CHEATCODE_ADDRESS).getCode()):";
          verdict TestContract.package_contract;
          Log1 EmptyString;
          Log2 "Local contract:" "Greeter.sol";
          Log1 "  Method 1 (vm.getCode()):";
          verdict "Greeter.sol";
          Log1 "  Method 2 (Vm(CHEATCODE_ADDRESS).getCode()):";
          verdict "Greeter.sol" ])%list
  /\ run_test (TestContract.test_DIAGNOSTIC_compareMethods env) = Passed.
Proof.
  cbv zeta. unfold run_test, TestContract.test_DIAGNOSTIC_compareMethods,
    TestContract.package_contract.
  cbv zeta. rewrite !Vm_at_cheatcode_address.
  unfold mbind, M_bind, bind, console_log, try_catch, vm_getCode.
  destruct (getCode env "TransparentUpgradeableProxy.sol:TransparentUpgradeableProxy");
    destruct (getCode env "Greeter.sol"); cbn;
    rewrite <- ?app_assoc; repeat split.
Qed.

End DiagnosticFacts.

(** ** Fixtures that only read *)

Section ViewFacts.
Import Abi Forge Env Evm.
Local Open Scope string_scope.

Lemma kw_ret {A} (a : A) : keeps_world (mret a).
Proof. intros st. reflexivity. Qed.

Lemma kw_revert {A} (r : string) : keeps_world (@revert A r).
Proof. intros st. reflexivity. Qed.

Lemma kw_bind {A B} (c : M A) (k : A -> M B) :
  keeps_world c -> (forall a, keeps_world (k a)) -> keeps_world (c ≫= k).
Proof.
  intros Hc Hk st. unfold mbind, M_bind, bind.
  specialize (Hc st). destruct (c st) as [st' [a|r]]; cbn [fst] in *.
  - now rewrite Hk.
  - exact Hc.
Qed.

Lemma kw_console_log (e : LogEntry) : keeps_world (console_log e).
Proof. intros st. reflexivity. Qed.

Lemma kw_assertTrue (b : bool) (msg : string) : keeps_world (assertTrue b msg).
Proof. intros st. now destruct b. Qed.

Lemma kw_expectRevert : keeps_world expectRevert.
Proof. intros st. reflexivity. Qed.

Lemma kw_vm_getCode (env : Env) (id : string) : keeps_world (vm_getCode env id).
Proof. intros st. reflexivity. Qed.

Lemma kw_Vm_getCode (env : Env) (addr : N) (id : string) :
  keeps_world (Vm_getCode env addr id).
Proof.
  unfold Vm_getCode. destruct (addr =? VM_ADDRESS)%N.
  - apply kw_vm_getCode.
  - apply kw_revert.
Qed.

Lemma kw_external_call {A} (dflt : A) (callee : M A) :
  keeps_world callee -> keeps_world (external_call dflt callee).
Proof.
  intros Hc st. unfold external_call.
  specialize (Hc (set_expecting false st)).
  destruct (callee (set_expecting false st)) as [st' [a|r]]; cbn [fst] in Hc;
    destruct (expecting_revert st); cbn [fst]; try exact Hc; reflexivity.
Qed.

Lemma kw_try_catch {A B} (call : M A) (on_ok : A -> M B) (on_err : M B) :
  keeps_world call -> (forall a, keeps_world (on_ok a)) -> keeps_world on_err ->
  keeps_world (try_catch call on_ok on_err).
Proof.
  intros Hc Hok Herr st. unfold try_catch.
  specialize (Hc st). destruct (call st) as [st' [a|r]]; cbn [fst] in Hc.
  - now rewrite Hok.
  - now rewrite Herr.
Qed.

Lemma kw_for_each {A} (xs : list A) (body : A -> M unit) :
  (forall x, keeps_world (body x)) -> keeps_world (for_each xs body).
Proof.
  intros Hb. induction xs as [|x xs IH]; cbn [for_each].
  - apply kw_ret.
  - apply kw_bind; [apply Hb|intros _; exact IH].
Qed.

Create HintDb views.
#[local] Hint Resolve kw_ret kw_revert kw_console_log kw_assertTrue kw_expectRevert
  kw_vm_getCode kw_Vm_getCode kw_external_call : views.

Ltac view_steps :=
  cbv zeta;
  repeat first
    [ apply kw_bind; [|intros ?]
    | apply kw_try_catch; [|intros ?|]
    | apply kw_for_each; intros ?
    | apply kw_external_call
    | solve [auto with views] ].

(** Every fixture declared [view], the [external view] helper, the
    expect-revert fixture and the undeclared [testGetCode] with the
    same body leave the chain state as they found it, from any state
    and whatever the lookups answer: none of them deploys a contract
    or writes storage. *)
Theorem view_fixtures_keep_world (env : Env) :
  Forall keeps_world
    [ TestContract.test_LOCAL_vmGetCode_SimpleContract_SHOULD_PASS env;
      TestContract.test_LOCAL_vmGetCode_Greeter_SHOULD_PASS env;
      TestContract.test_PACKAGE_vmGetCode_TransparentProxy_EXPECT_FAIL env;
      TestContract.test_PACKAGE_vmGetCode_viaCheatcodeAddress_EXPECT_FAIL env;
      TestContract.test_DIAGNOSTIC_showArtifactAvailability env;
      TestContract.test_DIAGNOSTIC_compareMethods env;
      TestContract.tryGetCodeForPackageContract env;
      TestContract.test_WORKAROUND_expectRevert_onPackageContract_SHOULD_PASS env;
      TestContract_part_003.testGetCode env;
      TestContract_part_003.testGetCodeFromPackage env;
      TestContract_part_004.testGetCode env ].
Proof.
  unfold TestContract.test_LOCAL_vmGetCode_SimpleContract_SHOULD_PASS,
    TestContract.test_LOCAL_vmGetCode_Greeter_SHOULD_PASS,
    TestContract.test_PACKAGE_vmGetCode_TransparentProxy_EXPECT_FAIL,
    TestContract.test_PACKAGE_vmGetCode_viaCheatcodeAddress_EXPECT_FAIL,
    TestContract.test_DIAGNOSTIC_showArtifactAvailability,
    TestContract.test_DIAGNOSTIC_compareMethods,
    TestContract.test_WORKAROUND_expectRevert_onPackageContract_SHOULD_PASS,
    TestContract.tryGetCodeForPackageContract,
    TestContract_part_003.testGetCode,
    TestContract_part_003.testGetCodeFromPackage,
    TestContract_part_004.testGetCode.
  repeat apply List.Forall_cons; try apply List.Forall_nil; view_steps.
Qed.

End ViewFacts.

(** ** The deployment fixtures, step by step *)

Section DeploymentFixtures.
Import Abi Forge Env Evm SimpleContract.
Local Open Scope string_scope.

(** The accounts both deployment fixtures leave when the lookup
    returns SimpleContract's non-empty creation bytecode. *)
Lemma deployment_fixtures_run (env : Env) (st : TestState) :
  getCode env "SimpleContract.sol" = Ok (SimpleContract_creationCode env) ->
  SimpleContract_creationCode env <> [] ->
  expecting_revert st = false ->
  let r3 := TestContract_part_003.testGetCodeAndCreate env st in
  let r := TestContract.test_LOCAL_deployWithVmGetCode_SHOULD_PASS env st in
  fresh_address (world st) <> 0%N
  /\ snd r3 = Ok tt
  /\ accounts (world (fst r3))
     = <[fresh_address (world st) := {[value_slot := 42%N]}]> (accounts (world st))
  /\ snd r = Ok tt
  /\ accounts (world (fst r))
     = <[fresh_address (world st) := {[value_slot := 100%N]}]> (accounts (world st)).
Proof.
  intros Hcode Hne He.
  assert (H100 : is_uint256 100) by (apply is_uint256_small; lia).
  assert (W100 : wrap256 100 = 100%N) by (now apply wrap256_small).
  assert (W42 : wrap256 42 = 42%N) by (apply wrap256_small, is_uint256_small; lia).
  cbv zeta. split; [unfold fresh_address; lia|].
  unfold TestContract_part_003.testGetCodeAndCreate,
    TestContract.test_LOCAL_deployWithVmGetCode_SHOULD_PASS.
  unfold mbind, M_bind, bind, vm_getCode. cbn beta zeta.
  rewrite Hcode, (nonempty_length _ Hne).
  cbv beta iota delta [assertTrue ret].
  rewrite !(create_SimpleContract _ _ _ H100).
  cbn [require negb].
  replace (fresh_address (world (record_cheat (CheatGetCode "SimpleContract.sol") st)) =? 0)%N
    with false by (symmetry; apply N.eqb_neq; unfold fresh_address; lia).
  cbn [negb require ret].
  set (st0 := record_cheat (CheatGetCode "SimpleContract.sol") st).
  assert (He0 : expecting_revert st0 = false) by exact He.
  set (st1 := set_world (install (sstore value_slot 100 ∅) (world st0)) st0).
  assert (He1 : expecting_revert st1 = false) by exact He.
  assert (Hacc : accounts (world st1) !! fresh_address (world st0)
                 = Some (sstore value_slot 100 ∅))
    by (cbn; apply lookup_insert_eq).
  rewrite (value_call env _ _ st1 Hacc He1).
  rewrite sload_sstore_eq, W100. cbn [assertEq N.eqb Pos.eqb ret].
  rewrite (setValue_call env _ 42 _ st1 Hacc He1).
  match goal with
  | |- context [SimpleContract_value env _ ?st] => set (st2 := st)
  end.
  assert (Hacc2 : accounts (world st2) !! fresh_address (world st0)
                  = Some (sstore value_slot 42 (sstore value_slot 100 ∅)))
    by (cbn; apply lookup_insert_eq).
  rewrite (value_call env _ _ st2 Hacc2 He).
  rewrite sload_sstore_eq, W42. cbn [assertEq N.eqb Pos.eqb ret fst snd].
  repeat split.
  cbn. unfold sstore. rewrite W42, W100, !insert_insert_eq. reflexivity.
Qed.

(** When the lookup returns SimpleContract's non-empty creation
    bytecode and the next address holds no account yet, both
    deployment fixtures return without reverting and add exactly one
    account: the number of accounts grows by one, the new account sits
    at that non-zero, previously unused address, and every other
    address keeps what it held. The new account holds 42 after
    [testGetCodeAndCreate], which calls the setter, and 100 after
    [test_LOCAL_deployWithVmGetCode_SHOULD_PASS], which does not. *)
Theorem deployment_fixtures_end_state (env : Env) (st : TestState) :
  getCode env "SimpleContract.sol" = Ok (SimpleContract_creationCode env) ->
  SimpleContract_creationCode env <> [] ->
  expecting_revert st = false ->
  accounts (world st) !! fresh_address (world st) = None ->
  let r3 := TestContract_part_003.testGetCodeAndCreate env st in
  let r := TestContract.test_LOCAL_deployWithVmGetCode_SHOULD_PASS env st in
  let a := fresh_address (world st) in
  a <> 0%N
  /\ snd r3 = Ok tt
  /\ size (accounts (world (fst r3))) = S (size (accounts (world st)))
  /\ accounts (world (fst r3)) !! a = Some {[value_slot := 42%N]}
  /\ (forall b, b <> a ->
        accounts (world (fst r3)) !! b = accounts (world st) !! b)
  /\ snd r = Ok tt
  /\ size (accounts (world (fst r))) = S (size (accounts (world st)))
  /\ accounts (world (fst r)) !! a = Some {[value_slot := 100%N]}
  /\ (forall b, b <> a ->
        accounts (world (fst r)) !! b = accounts (world st) !! b).
Proof.
  intros Hcode Hne He Hfresh.
  destruct (deployment_fixtures_run env st Hcode Hne He) as (Ha & Ok3 & E3 & Ok1 & E1).
  cbv zeta. rewrite E3, E1.
  split; [exact Ha|].
  split; [exact Ok3|].
  split; [now apply map_size_insert_None|].
  split; [apply lookup_insert_eq|].
  split; [intros b Hb; now apply lookup_insert_ne|].
  split; [exact Ok1|].
  split; [now apply map_size_insert_None|].
  split; [apply lookup_insert_eq|].
  intros b Hb. now apply lookup_insert_ne.
Qed.

(** The statement for an index that holds SimpleContract's artifact,
    from the initial state, where no address is in use. *)
Lemma deployment_fixtures_end_state_witness :
  let r3 := TestContract_part_003.testGetCodeAndCreate Samples.working_env initial_state in
  let r := TestContract.test_LOCAL_deployWithVmGetCode_SHOULD_PASS
             Samples.working_env initial_state in
  let a := fresh_address (world initial_state) in
  a <> 0%N
  /\ snd r3 = Ok tt
  /\ size (accounts (world (fst r3))) = S (size (accounts (world initial_state)))
  /\ accounts (world (fst r3)) !! a = Some {[value_slot := 42%N]}
  /\ (forall b, b <> a ->
        accounts (world (fst r3)) !! b = accounts (world initial_state) !! b)
  /\ snd r = Ok tt
  /\ size (accounts (world (fst r))) = S (size (accounts (world initial_state)))
  /\ accounts (world (fst r)) !! a = Some {[value_slot := 100%N]}
  /\ (forall b, b <> a ->
        accounts (world (fst r)) !! b = accounts (world initial_state) !! b).
Proof.
  apply (deployment_fixtures_end_state Samples.working_env initial_state).
  - reflexivity.
  - discriminate.
  - reflexivity.
  - reflexivity.
Defined.


End DeploymentFixtures.

(** ** The reproduce script when a command fails *)

Section ShellMore.
Import Artifacts Forge Env Hardhat Shell.
Local Open Scope string_scope.

(** Under [set -e], for any behaviour of its two commands: if [rm]
    exits non-zero the test command is not run and the script exits
    with [rm]'s status; otherwise the test command runs on what [rm]
    left and its status is the script's. Hence the script exits 0
    exactly when both commands do. *)
Theorem reproduce_stops_at_first_failure {S : Type}
    (exec : list string -> S -> S * N) (s : S) :
  let r := run exec reproduce s in
  let rm := exec rm_command s in
  let test := exec test_command (fst rm) in
  (if (snd rm =? 0)%N
   then executed r = [rm_command; test_command]
        /\ status r = snd test /\ final r = fst test
   else executed r = [rm_command]
        /\ status r = snd rm /\ final r = fst rm)
  /\ (status r = 0%N <-> snd rm = 0%N /\ snd test = 0%N).
Proof.
  cbv zeta. unfold run, reproduce.
  cbn [options errexit commands run_from andb].
  destruct (exec rm_command s) as [s1 c1]; cbn [fst snd].
  destruct (N.eqb_spec c1 0) as [->|Hc1]; cbn [negb].
  - destruct (exec test_command s1) as [s2 c2]; cbn [fst snd].
    destruct (N.eqb_spec c2 0) as [->|Hc2]; cbn [negb executed status final];
      intuition congruence.
  - cbn [executed status final]. intuition congruence.
Qed.

(** With the fixtures of Test.t.sol the script cannot exit 0: whatever
    lookup behaviour the fixtures run against, a tool that reports
    their results and follows the exit-status convention makes the
    script exit with status 1. *)
Theorem reproduce_never_succeeds_on_suite
    (tool : list string -> Disk -> Disk * Report) (d : Disk) (env : Env) :
  snd (tool (tl test_command) (rm_rf ["artifacts"; "cache"] d))
  = run_suite (TestContract.fixtures env) ->
  status (run (Shell.exec (with_exit_status tool)) reproduce d) = 1%N.
Proof.
  intros Hreport. rewrite run_reproduce. cbn [status].
  unfold with_exit_status.
  destruct (tool _ _) as [d' r]; cbn [snd] in *. subst r.
  unfold exit_status. now rewrite suite_always_has_failure.
Qed.

(** The statement for the modelled test command on the sample toolchain. *)
Lemma reproduce_never_succeeds_on_suite_witness :
  status (run (Shell.exec
                 (with_exit_status
                    (hardhat Samples.toolchain
                       (project Samples.toolchain (Test_t_sol Samples.toolchain))
                       TestContract.fixtures)))
              reproduce Samples.empty_disk) = 1%N.
Proof.
  apply (reproduce_never_succeeds_on_suite
           (hardhat Samples.toolchain
              (project Samples.toolchain (Test_t_sol Samples.toolchain))
              TestContract.fixtures)
           Samples.empty_disk
           (env_of Samples.toolchain
              (load_index
                 (compile_tests
                    (project Samples.toolchain (Test_t_sol Samples.toolchain))
                    (rm_rf ["artifacts"; "cache"] Samples.empty_disk))))).
  reflexivity.
Defined.

End ShellMore.

(** ** The two configuration objects compared *)

Section ConfigMore.
Import Config.
Local Open Scope string_scope.

(** The configuration with [npmFilesToBuild] differs from
    src/hardhat.config.ts in its [solidity] section only: every
    property path that does not start at [solidity] reads the same in
    both, while [solidity.npmFilesToBuild] exists in one and is missing
    in the other. *)
Theorem configs_differ_in_solidity_only (k : string) (rest : list string) :
  k <> "solidity" ->
  at_path (k :: rest) config = at_path (k :: rest) config_part_001
  /\ at_path ["solidity"; "npmFilesToBuild"] config = None
  /\ is_array (at_path ["solidity"; "npmFilesToBuild"] config_part_001) = true.
Proof.
  intros Hk. split; [|split; reflexivity].
  unfold config, config_part_001. cbn [at_path field find fst].
  apply String.eqb_neq in Hk. rewrite String.eqb_sym in Hk. rewrite Hk.
  reflexivity.
Qed.

(** The statement for the FFI toggle's path. *)
Lemma configs_differ_in_solidity_only_witness :
  at_path ["test"; "solidity"; "ffi"] config
  = at_path ["test"; "solidity"; "ffi"] config_part_001
  /\ at_path ["solidity"; "npmFilesToBuild"] config = None
  /\ is_array (at_path ["solidity"; "npmFilesToBuild"] config_part_001) = true.
Proof.
  apply (configs_differ_in_solidity_only "test" ["solidity"; "ffi"]).
  discriminate.
Defined.

End ConfigMore.
